(** * SNMP printer integration: the refresh cycle and its cache fallback

    A shallow embedding of [custom_components/snmp_printer/__init__.py]:
    the web-interface probe [check_web_interface], the update closure
    [async_update_data] with its keyword classifier and cache fallback, and
    [async_setup_entry], which loads the cache once and performs the first
    refresh.

    Python dictionaries are finite maps from strings to JSON-like values,
    awaited calls that may raise are results, and the persisted cache record
    is threaded through every call as explicit state. *)

From Stdlib Require Import ZArith String Ascii Bool.
From stdpp Require Import gmap strings list fin_maps.

Set Warnings "-register-all".
Local Open Scope string_scope.

(** ** Values *)

(** The JSON-like values the integration passes around: what the SNMP client
    returns, what the store persists and what the coordinator publishes. *)
Inductive Value : Type :=
| VNone
| VBool (b : bool)
| VInt (z : Z)
| VStr (s : string)
| VList (l : list Value)
| VDict (m : gmap string Value).

Abbreviation dict := (gmap string Value).

(** Python truthiness, as used by [if cached_data.get("data") and ...] and
    by [store.async_load() or {}]. *)
Definition truthy (v : Value) : bool :=
  match v with
  | VNone => false
  | VBool b => b
  | VInt z => negb (z =? 0)%Z
  | VStr s => negb (String.eqb s "")
  | VList l => match l with [] => false | _ :: _ => true end
  | VDict m => negb (bool_decide (m = ∅))
  end.

(** [d.get(k)]: the value under [k], or [None]. *)
Definition get (d : dict) (k : string) : Value := default VNone (d !! k).

(** [d.get(k, dflt)]. *)
Definition get_or (d : dict) (k : string) (dflt : Value) : Value :=
  default dflt (d !! k).

(** The class name Python prints for a value in its error messages. *)
Definition type_name (v : Value) : string :=
  match v with
  | VNone => "NoneType"
  | VBool _ => "bool"
  | VInt _ => "int"
  | VStr _ => "str"
  | VList _ => "list"
  | VDict _ => "dict"
  end.

(** ** Exceptions and results *)

(** An exception object: its class, the text [str(err)] yields, and the
    [__cause__] set by [raise ... from err].  Only subclasses of
    [Exception] are modelled; all of them are caught by [except Exception]. *)
Inductive exn : Type :=
| Exc (cls : string) (msg : string) (cause : option exn).

Definition str (e : exn) : string := let 'Exc _ msg _ := e in msg.
Definition cause_of (e : exn) : option exn := let 'Exc _ _ cause := e in cause.

(** [raise UpdateFailed(msg) from err]. *)
Definition UpdateFailed (msg : string) (err : exn) : exn :=
  Exc "UpdateFailed" msg (Some err).

Inductive result (A : Type) : Type :=
| Return (a : A)
| Raise (e : exn).
Arguments Return {A} a.
Arguments Raise {A} e.

(** ** The store and the monad of awaited calls *)

(** What the [Store] of the entry holds on disk: nothing, or the record of
    the last save.  Every coroutine of the module runs against it. *)
Definition Disk : Type := option dict.

Definition M (A : Type) : Type := Disk → result A * Disk.

#[global] Instance M_ret : MRet M := fun A (a : A) d => (Return a, d).

#[global] Instance M_bind : MBind M := fun A B (k : A → M B) (m : M A) d =>
  match m d with
  | (Return a, d') => k a d'
  | (Raise e, d') => (Raise e, d')
  end.

Definition raise {A} (e : exn) : M A := fun d => (Raise e, d).

(** [await c] for a collaborator call whose outcome is [r]. *)
Definition await {A} (r : result A) : M A := fun d => (r, d).

(** [try: body / except Exception as err: handler(err)]. *)
Definition try_except {A} (body : M A) (handler : exn → M A) : M A :=
  fun d => match body d with
           | (Return a, d') => (Return a, d')
           | (Raise e, d') => handler e d'
           end.

(** ** Strings *)

(** Texts are Python strings in their UTF-8 encoding.

    [str.lower()].  The ASCII capitals are lowered by [lower_ascii].
    Outside ASCII, Python lowers exactly two characters to something that
    holds an ASCII letter: the Kelvin sign U+212A (the bytes 226 132 170)
    to [k], and the capital I with dot above U+0130 (196 176) to [i]
    followed by the combining dot U+0307 (204 135).  Every other character
    outside ASCII is lowered to characters outside ASCII; its bytes are
    kept as they are, which leaves every occurrence of an ASCII keyword
    where it is. *)
Definition lower_ascii (c : ascii) : ascii :=
  let n := N_of_ascii c in
  if ((65 <=? n) && (n <=? 90))%N then ascii_of_N (n + 32) else c.

Fixpoint lower (s : string) : string :=
  match s with
  | EmptyString => EmptyString
  | String c s1 =>
      match s1 with
      | String c1 s2 =>
          if Ascii.eqb c "196" && Ascii.eqb c1 "176" then
            String "i" (String "204" (String "135" (lower s2)))
          else
            match s2 with
            | String c2 s3 =>
                if Ascii.eqb c "226" && Ascii.eqb c1 "132"
                   && Ascii.eqb c2 "170"
                then String "k" (lower s3)
                else String (lower_ascii c) (lower s1)
            | EmptyString => String (lower_ascii c) (lower s1)
            end
      | EmptyString => String (lower_ascii c) EmptyString
      end
  end.

Fixpoint startswith (kw s : string) : bool :=
  match kw, s with
  | EmptyString, _ => true
  | String _ _, EmptyString => false
  | String a kw', String b s' => Ascii.eqb a b && startswith kw' s'
  end.

(** [kw in s] on strings: [kw] occurs in [s] as a contiguous substring. *)
Fixpoint contains (kw s : string) : bool :=
  startswith kw s
  || match s with
     | EmptyString => false
     | String _ s' => contains kw s'
     end.

(** ** Failure classifier *)

Definition connection_keywords : list string :=
  [ "timeout"; "unreachable"; "no route"; "connection"; "network";
    "host"; "refused"; "failed"; "no response" ].

(** [error_msg = str(err).lower()] and
    [any(keyword in error_msg for keyword in [...])]. *)
Definition is_connection_error (err : exn) : bool :=
  let error_msg := lower (str err) in
  existsb (fun keyword => contains keyword error_msg) connection_keywords.

(** ** Web-interface probe *)

(** One [session.get] under [asyncio.timeout(3)]: the body of the [with]
    returns [True] from the function when the status is below 500 and falls
    through otherwise.  [Some b] stands for [return b], [None] for falling
    through.  The request outcome [r] is a status, or the exception raised by
    the request or by the timeout. *)
Definition probe (r : result Z) : M (option bool) :=
  response_status ← await r;
  if (response_status <? 500)%Z then mret (Some true) else mret None.

(** [except Exception: pass]. *)
Definition pass (_ : exn) : M (option bool) := mret None.

Definition check_web_interface (http https : result Z) : M bool :=
  r1 ← try_except (probe http) pass;
  match r1 with
  | Some b => mret b
  | None =>
      r2 ← try_except (probe https) pass;
      match r2 with
      | Some b => mret b
      | None => mret false
      end
  end.

(** ** Collaborators of one refresh cycle *)

(** What the collaborators answer during one cycle: each SNMP client query
    returns its data or raises, each HTTP request yields a status or raises,
    the clock gives [datetime.now().isoformat()], and [store.async_save]
    returns or raises.  A save that returns has either written the record
    or only logged that it could not ([save_written]).  A call that is
    never reached leaves its answer unused. *)
Record Env : Type := {
  get_system_info : result dict;
  get_device_info : result dict;
  get_cover_status : result Value;
  get_supplies : result Value;
  get_input_trays : result Value;
  get_display_text : result Value;
  get_printer_errors : result Value;
  http_get : result Z;
  https_get : result Z;
  now_isoformat : string;
  async_save : result ();
  save_written : bool
}.

(** [store.async_save(record)].  A save that returns and has written has
    replaced the record on disk by the value handed over, serialised while
    the save is awaited (the store keeps no reference to it).  The store
    logs a write or serialisation failure and returns all the same: the
    disk is then as it was.  A save that raises has written nothing. *)
Definition store_async_save (outcome : result ()) (written : bool)
    (record : dict) : M () :=
  fun d => match outcome with
           | Return _ => (Return (), if written then Some record else d)
           | Raise e => (Raise e, d)
           end.

(** [store.async_load()]: the record on disk, [None] when there is none, or
    the error raised by the read. *)
Definition store_async_load (outcome : result ()) : M (option dict) :=
  fun d => match outcome with
           | Return _ => (Return d, d)
           | Raise e => (Raise e, d)
           end.

(** [loaded or {}]. *)
Definition or_empty (loaded : option dict) : dict :=
  match loaded with
  | Some record => if truthy (VDict record) then record else ∅
  | None => ∅
  end.

(** ** The update closure *)

(** The dictionary display assigned to [data]; [{**a, **b}] lets [b] win,
    which is the left-biased union [b ∪ a]. *)
Definition data_of (system_info device_info : dict)
    (cover supplies input_trays display_text errors : Value)
    (web_interface_available : bool) : dict :=
  <["info" := VDict (device_info ∪ system_info)]>
  (<["status" := VDict device_info]>
  (<["cover_status" := VDict {["state" := cover]}]>
  (<["page_count" :=
       get_or device_info "page_counts"
         (VDict {["total" := get device_info "page_count"]})]>
  (<["supplies" := supplies]>
  (<["input_trays" := input_trays]>
  (<["display_text" := display_text]>
  (<["errors" := errors]>
  (<["web_interface_available" := VBool web_interface_available]> ∅)))))))).

(** The record handed to the store. *)
Definition cache_record (data : dict) (timestamp host : string) : dict :=
  <["data" := VDict data]>
  (<["timestamp" := VStr timestamp]>
  (<["host" := VStr host]> ∅)).

(** The body of the [try].  The record is serialised by the awaited save,
    before the key [is_online] is added to [data]. *)
Definition try_body (host : string) (env : Env) : M dict :=
  system_info ← await (get_system_info env);
  device_info ← await (get_device_info env);
  cover ← await (get_cover_status env);
  supplies ← await (get_supplies env);
  input_trays ← await (get_input_trays env);
  display_text ← await (get_display_text env);
  errors ← await (get_printer_errors env);
  web ← check_web_interface (http_get env) (https_get env);
  let data :=
    data_of system_info device_info cover supplies input_trays
      display_text errors web in
  let cache_data := cache_record data (now_isoformat env) host in
  store_async_save (async_save env) (save_written env) cache_data;;
  mret (<["is_online" := VBool true]> data).

(** What [cached_data["data"].copy()] followed by the two item assignments
    raises when the stored value is not a dictionary. *)
Definition not_a_dict (v : Value) : exn :=
  match v with
  | VList _ =>
      Exc "TypeError" "list indices must be integers or slices, not str" None
  | _ =>
      Exc "AttributeError"
        ("'" +:+ type_name v +:+ "' object has no attribute 'copy'") None
  end.

(** The [except Exception as err] clause. *)
Definition handler (cached_data : dict) (err : exn) : M dict :=
  if truthy (get cached_data "data") && is_connection_error err then
    match get cached_data "data" with
    | VDict cached =>
        let cached_printer_data := cached in
        let cached_printer_data :=
          <["is_online" := VBool false]> cached_printer_data in
        let cached_printer_data :=
          <["offline_since" := get cached_data "timestamp"]>
            cached_printer_data in
        mret cached_printer_data
    | v => raise (not_a_dict v)
    end
  else
    raise (UpdateFailed ("Error fetching printer data: " +:+ str err) err).

Definition async_update_data (host : string) (cached_data : dict) (env : Env)
  : M dict :=
  try_except (try_body host env) (handler cached_data).

(** ** The coordinator and the entry *)

Module Coordinator.

(** The state of Home Assistant's [DataUpdateCoordinator], a collaborator
    outside the repository: the published data and whether the last update
    succeeded. *)
Record t : Type := {
  data : option dict;
  last_update_success : bool
}.

Definition init : t := {| data := None; last_update_success := true |}.

(** Modelled from the spec: the refresh of the coordinator, which belongs
    to Home Assistant and not to the integration.  Sections 4.4 and 7: a
    returned snapshot becomes the
    published data; a raised error is reported as a failed update and the
    published data stays as it was.  The refresh itself never raises. *)
Definition async_refresh (update_method : M dict) (c : t) : M t :=
  try_except
    (snapshot ← update_method;
     mret {| data := Some snapshot; last_update_success := true |})
    (fun _ => mret {| data := data c; last_update_success := false |}).

End Coordinator.

(** What [async_setup_entry] leaves behind: the variables captured by the
    closure and the coordinator stored under the entry. *)
Record Entry : Type := {
  host : string;
  cached_data : dict;
  coordinator : Coordinator.t
}.

(** [async_setup_entry]: load the cache once, build the closure, await the
    first refresh.  [load] is the outcome of the read, [env] what the
    collaborators answer during the first cycle. *)
Definition async_setup_entry (host : string) (load : result ()) (env : Env)
  : M Entry :=
  loaded ← store_async_load load;
  let cached_data := or_empty loaded in
  coordinator ←
    Coordinator.async_refresh (async_update_data host cached_data env)
      Coordinator.init;
  mret {| host := host; cached_data := cached_data;
          coordinator := coordinator |}.

(** One later tick of the coordinator: it calls the closure again. *)
Definition refresh (env : Env) (e : Entry) : M Entry :=
  c ←
    Coordinator.async_refresh
      (async_update_data (host e) (cached_data e) env) (coordinator e);
  mret {| host := host e; cached_data := cached_data e; coordinator := c |}.

(** A run of ticks, oldest first. *)
Fixpoint refreshes (envs : list Env) (e : Entry) : M Entry :=
  match envs with
  | [] => mret e
  | env :: envs' => e' ← refresh env e; refreshes envs' e'
  end.

(** * The sensor platform

    The entities of [sensor.py] read the dictionary the coordinator
    publishes.  Each property of an entity is a function of that dictionary
    ([None] before the first successful refresh) and, for supplies and
    trays, of the dictionary the entity was created from. *)

(** ** Python operations on values *)

#[global] Instance result_ret : MRet result := fun A (a : A) => Return a.

#[global] Instance result_bind : MBind result :=
  fun A B (k : A → result B) (m : result A) =>
    match m with
    | Return a => k a
    | Raise e => Raise e
    end.

Definition all_true (m : gmap string bool) : bool :=
  map_fold (fun _ b acc => b && acc) true m.

Definition pair_up (f : option (Value → bool)) (v : option Value)
  : option bool :=
  match f, v with
  | Some f, Some v => Some (f v)
  | None, None => None
  | _, _ => Some false
  end.

(** [a == b]: booleans compare as the integers 0 and 1, lists element by
    element, dictionaries key by key. *)
Fixpoint py_eq (a : Value) {struct a} : Value → bool :=
  match a with
  | VNone => fun b => match b with VNone => true | _ => false end
  | VBool x => fun b =>
      match b with
      | VBool y => Bool.eqb x y
      | VInt z => (Z.b2z x =? z)%Z
      | _ => false
      end
  | VInt z => fun b =>
      match b with
      | VBool y => (z =? Z.b2z y)%Z
      | VInt z' => (z =? z')%Z
      | _ => false
      end
  | VStr s => fun b => match b with VStr s' => String.eqb s s' | _ => false end
  | VList l => fun b =>
      match b with
      | VList l' =>
          (fix go (l : list Value) : list Value → bool :=
             match l with
             | [] => fun l' => match l' with [] => true | _ :: _ => false end
             | x :: l => fun l' =>
                 match l' with
                 | [] => false
                 | y :: l' => py_eq x y && go l l'
                 end
             end) l l'
      | _ => false
      end
  | VDict m => fun b =>
      match b with
      | VDict m' => all_true (merge pair_up (py_eq <$> m) m')
      | _ => false
      end
  end.

(** [v is None]. *)
Definition is_none (v : Value) : bool :=
  match v with
  | VNone => true
  | _ => false
  end.

(** [v.get(k, dflt)] on a value that need not be a dictionary. *)
Definition py_get (v : Value) (k : string) (dflt : Value) : result Value :=
  match v with
  | VDict m => Return (get_or m k dflt)
  | _ =>
      Raise
        (Exc "AttributeError"
           ("'" +:+ type_name v +:+ "' object has no attribute 'get'") None)
  end.

(** The elements [for x in v] runs through.  A string yields its
    characters (byte by byte in the encoding used here; the loops below
    only call [get] on an element, which fails on any string) and a
    dictionary its keys; the finite map does not record the insertion
    order Python follows for the keys. *)
Definition py_iter (v : Value) : result (list Value) :=
  match v with
  | VList l => Return l
  | VStr s => Return ((fun c => VStr (String c "")) <$> list_ascii_of_string s)
  | VDict m => Return (VStr <$> (map_to_list m).*1)
  | _ =>
      Raise
        (Exc "TypeError" ("'" +:+ type_name v +:+ "' object is not iterable")
           None)
  end.

(** [if not self.coordinator.data: return dflt], then [body] on the
    dictionary. *)
Definition with_data {A} (data : option dict) (dflt : A) (body : dict → A)
  : A :=
  match data with
  | Some d => if truthy (VDict d) then body d else dflt
  | None => dflt
  end.

(** The loop shared by the supply and tray entities:
    [for item in items: if item.get("index") == index: return found(item)]
    and [missing] after the loop. *)
Fixpoint for_matching_index {A} (items : list Value) (index : Value)
    (found : Value → result A) (missing : result A) : result A :=
  match items with
  | [] => missing
  | item :: rest =>
      item_index ← py_get item "index" VNone;
      if py_eq item_index index then found item
      else for_matching_index rest index found missing
  end.

(** ** Entities *)

Module PrinterSensorBase.

Definition available (data : option dict) : bool :=
  match data with
  | Some _ => true
  | None => false
  end.

Definition is_printer_online (data : option dict) : Value :=
  with_data data (VBool false) (fun d => get_or d "is_online" (VBool true)).

(** The block every attribute method repeats:
    [if not self.is_printer_online: attributes["using_cached_data"] = True]
    and, when [offline_since] is truthy, [attributes[key] = offline_since]. *)
Definition offline_information (key : string) (d : dict) (attributes : dict)
  : dict :=
  if negb (truthy (is_printer_online (Some d))) then
    let attributes := <["using_cached_data" := VBool true]> attributes in
    let offline_since := get d "offline_since" in
    if truthy offline_since then <[key := offline_since]> attributes
    else attributes
  else attributes.

(** [self.coordinator.data.get("info", {}).get("serial_number", host)], the
    expression every constructor starts its unique id from.  The
    constructors do not check for missing data. *)
Definition unique_id (data : option dict) (host : string) : result Value :=
  match data with
  | Some d => py_get (get_or d "info" (VDict ∅)) "serial_number" (VStr host)
  | None =>
      Raise
        (Exc "AttributeError" "'NoneType' object has no attribute 'get'" None)
  end.

End PrinterSensorBase.

Module PrinterStatusSensor.

Definition native_value (data : option dict) : result Value :=
  with_data data (Return (VStr "unknown")) (fun d =>
    if negb (truthy (PrinterSensorBase.is_printer_online data)) then
      Return (VStr "offline")
    else
      let status := get_or d "status" (VDict ∅) in
      py_get status "state" (VStr "unknown")).

Definition extra_state_attributes (data : option dict) : result dict :=
  with_data data (Return ∅) (fun d =>
    let info := get_or d "info" (VDict ∅) in
    uptime ← py_get info "uptime" VNone;
    contact ← py_get info "contact" VNone;
    location ← py_get info "location" VNone;
    serial_number ← py_get info "serial_number" VNone;
    description ← py_get info "description" VNone;
    let attributes : dict :=
      <["uptime" := uptime]>
      (<["contact" := contact]>
      (<["location" := location]>
      (<["serial_number" := serial_number]>
      (<["description" := description]> ∅)))) in
    let attributes :=
      PrinterSensorBase.offline_information "offline_since" d attributes in
    Return (filter (fun kv => is_none kv.2 = false) attributes)).

End PrinterStatusSensor.

Module PrinterCoverStatusSensor.

Definition entity_registry_enabled_default (data : option dict)
  : result bool :=
  with_data data (Return false) (fun d =>
    let cover_status := get_or d "cover_status" (VDict ∅) in
    state ← py_get cover_status "state" (VStr "unknown");
    Return (negb (py_eq state (VStr "unknown"))
            && negb (py_eq state (VStr "")))).

Definition native_value (data : option dict) : result Value :=
  with_data data (Return (VStr "unknown")) (fun d =>
    let cover_status := get_or d "cover_status" (VDict ∅) in
    py_get cover_status "state" (VStr "unknown")).

End PrinterCoverStatusSensor.

Module PrinterPageCountSensor.

Definition native_value (data : option dict) : result Value :=
  with_data data (Return VNone) (fun d =>
    let page_count := get_or d "page_count" (VDict ∅) in
    py_get page_count "total" VNone).

Definition extra_state_attributes (data : option dict) : result dict :=
  with_data data (Return ∅) (fun d =>
    let page_count := get_or d "page_count" (VDict ∅) in
    let attrs : dict := ∅ in
    color ← py_get page_count "color" VNone;
    let attrs :=
      if negb (is_none color) then <["color_pages" := color]> attrs
      else attrs in
    black_and_white ← py_get page_count "black_and_white" VNone;
    let attrs :=
      if negb (is_none black_and_white)
      then <["black_and_white_pages" := black_and_white]> attrs
      else attrs in
    Return (PrinterSensorBase.offline_information "last_updated" d attrs)).

End PrinterPageCountSensor.

Module PrinterSupplySensor.

Definition entity_registry_enabled_default : bool := true.

Definition native_value (data : option dict) (_supply : dict)
  : result Value :=
  with_data data (Return VNone) (fun d =>
    match d !! "supplies" with
    | None => Return VNone
    | Some supplies =>
        items ← py_iter supplies;
        for_matching_index items (get _supply "index")
          (fun supply => py_get supply "percentage" VNone)
          (Return VNone)
    end).

(** The chain of comparisons that adds [rgb_color]. *)
Definition rgb_color (color : Value) : option Value :=
  let rgb (r g b : Z) := Some (VList [VInt r; VInt g; VInt b]) in
  (if py_eq color (VStr "Black") then rgb 0 0 0
   else if py_eq color (VStr "Cyan") then rgb 0 255 255
   else if py_eq color (VStr "Magenta") then rgb 255 0 255
   else if py_eq color (VStr "Yellow") then rgb 255 255 0
   else if py_eq color (VStr "Gray") || py_eq color (VStr "Grey")
        then rgb 128 128 128
   else if py_eq color (VStr "Light Cyan") then rgb 128 255 255
   else if py_eq color (VStr "Light Magenta") then rgb 255 128 255
   else if py_eq color (VStr "Photo") then rgb 128 128 255
   else None)%Z.

Definition extra_state_attributes (data : option dict) (_supply : dict)
  : result dict :=
  with_data data (Return ∅) (fun d =>
    match d !! "supplies" with
    | None => Return ∅
    | Some supplies =>
        items ← py_iter supplies;
        for_matching_index items (get _supply "index")
          (fun supply =>
             type ← py_get supply "type" VNone;
             color ← py_get supply "color" VNone;
             description ← py_get supply "description" VNone;
             let attributes : dict :=
               <["type" := type]>
               (<["color" := color]>
               (<["description" := description]> ∅)) in
             let attributes :=
               PrinterSensorBase.offline_information "last_updated" d
                 attributes in
             color ← py_get supply "color" (VStr "");
             Return
               match rgb_color color with
               | Some rgb => <["rgb_color" := rgb]> attributes
               | None => attributes
               end)
          (Return ∅)
    end).

End PrinterSupplySensor.

Module PrinterTraySensor.

Definition entity_registry_enabled_default (_tray : dict) : bool :=
  negb (is_none (get _tray "percentage")).

Definition native_value (data : option dict) (_tray : dict) : result Value :=
  with_data data (Return VNone) (fun d =>
    match d !! "input_trays" with
    | None => Return VNone
    | Some input_trays =>
        items ← py_iter input_trays;
        for_matching_index items (get _tray "index")
          (fun tray => py_get tray "percentage" VNone)
          (Return VNone)
    end).

Definition extra_state_attributes (data : option dict) (_tray : dict)
  : result dict :=
  with_data data (Return ∅) (fun d =>
    match d !! "input_trays" with
    | None => Return ∅
    | Some input_trays =>
        items ← py_iter input_trays;
        for_matching_index items (get _tray "index")
          (fun tray =>
             status ← py_get tray "status" VNone;
             media_name ← py_get tray "media_name" VNone;
             max_capacity ← py_get tray "max_capacity" VNone;
             current_level ← py_get tray "current_level" VNone;
             let attributes : dict :=
               <["status" := status]>
               (<["media_name" := media_name]>
               (<["max_capacity" := max_capacity]>
               (<["current_level" := current_level]> ∅))) in
             Return
               (PrinterSensorBase.offline_information "last_updated" d
                  attributes))
          (Return ∅)
    end).

End PrinterTraySensor.

Module PrinterErrorSensor.

Definition native_value (data : option dict) : Value :=
  with_data data (VStr "none") (fun d =>
    let errors := get d "errors" in
    if truthy errors then errors else VStr "none").

Definition entity_registry_enabled_default : bool := true.

End PrinterErrorSensor.

Module PrinterDisplayTextSensor.

Definition native_value (data : option dict) : Value :=
  with_data data (VStr "unknown") (fun d =>
    let display_text := get d "display_text" in
    if truthy display_text then display_text else VStr "unknown").

Definition entity_registry_enabled_default (data : option dict) : bool :=
  with_data data false (fun d =>
    let display_text := get d "display_text" in
    negb (is_none display_text) && negb (py_eq display_text (VStr ""))).

End PrinterDisplayTextSensor.

(** ** Vocabulary of the properties *)

(** Case-insensitive comparison, stated without [lower].  The piece [s]
    of a text is the keyword [kw] with case ignored when it spells [kw]
    character by character, except that a lower-case letter of the keyword
    may stand in the text as its capital, and [k] as the Kelvin sign. *)
Definition is_lower_letter (k : ascii) : bool :=
  let n := N_of_ascii k in ((97 <=? n) && (n <=? 122))%N.

Definition capital (k : ascii) : ascii := ascii_of_N (N_of_ascii k - 32).

Inductive matches_nocase : string → string → Prop :=
| matches_nil : matches_nocase "" ""
| matches_same k s kw :
    matches_nocase s kw → matches_nocase (String k s) (String k kw)
| matches_capital c k s kw :
    is_lower_letter k = true → c = capital k →
    matches_nocase s kw → matches_nocase (String c s) (String k kw)
| matches_kelvin s kw :
    matches_nocase s kw →
    matches_nocase (String "226" (String "132" (String "170" s)))
      (String "k" kw).

(** The text contains [kw] when compared without regard to case. *)
Definition contains_nocase (kw text : string) : Prop :=
  ∃ pre s suf, text = pre +:+ s +:+ suf ∧ matches_nocase s kw.

(** What the keywords of the classifier have in common: ASCII characters
    that are no capitals, and no [i] at the very end. *)
Definition plain_char (k : ascii) : bool :=
  let n := N_of_ascii k in
  ((n <? 128) && negb ((65 <=? n) && (n <=? 90)))%N.

Fixpoint plain_keyword (kw : string) : bool :=
  match kw with
  | EmptyString => true
  | String k kw' =>
      plain_char k
      && (if Ascii.eqb k "i"
          then match kw' with EmptyString => false | String _ _ => true end
          else true)
      && plain_keyword kw'
  end.

(** A text that does not start in the middle of one of the two characters
    [lower] looks for. *)
Definition safe_head (x : string) : Prop :=
  ∀ c rest, x = String c rest →
    c ≠ "132"%char ∧ c ≠ "170"%char ∧ c ≠ "176"%char.

Definition failure_of {A} (r : result A) : list exn :=
  match r with
  | Return _ => []
  | Raise e => [e]
  end.

(** The errors the seven SNMP queries of a cycle answer with, in the order
    of the calls.  The head is the failure the cycle meets: later queries
    are not issued. *)
Definition query_failures (env : Env) : list exn :=
  failure_of (get_system_info env) ++ failure_of (get_device_info env)
  ++ failure_of (get_cover_status env) ++ failure_of (get_supplies env)
  ++ failure_of (get_input_trays env) ++ failure_of (get_display_text env)
  ++ failure_of (get_printer_errors env).

(** The error a call ends with, if any. *)
Definition raised {A} (r : result A) : option exn :=
  match r with
  | Return _ => None
  | Raise e => Some e
  end.

(** The same cycle with other answers to the two HTTP requests. *)
Definition with_probe (http https : result Z) (env : Env) : Env :=
  {| get_system_info := get_system_info env;
     get_device_info := get_device_info env;
     get_cover_status := get_cover_status env;
     get_supplies := get_supplies env;
     get_input_trays := get_input_trays env;
     get_display_text := get_display_text env;
     get_printer_errors := get_printer_errors env;
     http_get := http;
     https_get := https;
     now_isoformat := now_isoformat env;
     async_save := async_save env;
     save_written := save_written env |}.

(** The status the probe accepts. *)
Definition below_500 (r : result Z) : Prop :=
  ∃ status, r = Return status ∧ (status < 500)%Z.

(** The dictionaries one cycle can assemble: every field comes from the
    answers of that one cycle. *)
Inductive assembled : dict → Prop :=
| assembled_intro system_info device_info cover supplies input_trays
    display_text errors web :
    assembled
      (data_of system_info device_info cover supplies input_trays
         display_text errors web).

(** The two shapes of a published snapshot. *)
Definition fresh (data : dict) : dict := <["is_online" := VBool true]> data.

Definition stale (data : dict) (timestamp : Value) : dict :=
  <["offline_since" := timestamp]> (<["is_online" := VBool false]> data).

(** The cycle answered by [env] is successful and captures [data]: for
    every host and disk its [try] body returns the assembled [data] marked
    online, and the disk holds the record of [data] when the save has
    written it and is as before otherwise. *)
Definition captured (env : Env) (data : dict) : Prop :=
  assembled data
  ∧ ∀ host d,
      try_body host env d
      = (Return (fresh data),
         if save_written env
         then Some (cache_record data (now_isoformat env) host)
         else d).

(** ** Runs of the integration *)

Definition entry_of (r : result Entry) : option Entry :=
  match r with
  | Return e => Some e
  | Raise _ => None
  end.

(** The states a run can be in: the record on disk and the entry, if it is
    set up, together with the cycles run so far, latest first.  A run starts
    from a fresh installation; the entry is set up (again, after a restart
    or a reload) from whatever is on disk; the coordinator then ticks. *)
Inductive reachable : list Env → Disk → option Entry → Prop :=
| reach_install : reachable [] None None
| reach_setup history d oe host env :
    reachable history d oe →
    reachable (env :: history)
      (async_setup_entry host (Return ()) env d).2
      (entry_of (async_setup_entry host (Return ()) env d).1)
| reach_setup_failed history d oe host env err :
    reachable history d oe →
    reachable history
      (async_setup_entry host (Raise err) env d).2
      (entry_of (async_setup_entry host (Raise err) env d).1)
| reach_refresh history d e env :
    reachable history d (Some e) →
    reachable (env :: history) (refresh env e d).2
      (entry_of (refresh env e d).1).

(** A record written by a successful cycle of the run. *)
Definition record_of (history : list Env) (record : dict) : Prop :=
  ∃ env data host,
    env ∈ history ∧ captured env data
    ∧ record = cache_record data (now_isoformat env) host.

(** A snapshot that comes whole from one successful cycle of the run: as
    that cycle returned it, or its data marked offline since the time of
    that capture. *)
Definition snapshot_of (history : list Env) (snapshot : dict) : Prop :=
  ∃ env data,
    env ∈ history ∧ captured env data
    ∧ (snapshot = fresh data
       ∨ snapshot = stale data (VStr (now_isoformat env))).

Definition disk_ok (history : list Env) (d : Disk) : Prop :=
  ∀ record, d = Some record → record_of history record.

Definition cache_ok (history : list Env) (cached_data : dict) : Prop :=
  cached_data = ∅ ∨ record_of history cached_data.

Definition entry_ok (history : list Env) (oe : option Entry) : Prop :=
  ∀ e, oe = Some e →
    cache_ok history (cached_data e)
    ∧ ∀ snapshot,
        Coordinator.data (coordinator e) = Some snapshot →
        snapshot_of history snapshot.

(** ** Scenarios *)

Module Scenario.

Definition printer : string := "192.168.1.50".

(** A printer that answers every query; its web interface answers on
    HTTP. *)
Definition online (now : string) : Env :=
  {| get_system_info := Return {["description" := VStr "LaserJet"]};
     get_device_info :=
       Return (<["state" := VStr "idle"]> {["page_count" := VInt 1200]});
     get_cover_status := Return (VStr "closed");
     get_supplies :=
       Return
         (VList
            [VDict
               (<["index" := VInt 1]>
                (<["color" := VStr "Black"]>
                 {["percentage" := VInt 42]}))]);
     get_input_trays := Return (VList []);
     get_display_text := Return (VStr "Ready");
     get_printer_errors := Return VNone;
     http_get := Return 200%Z;
     https_get := Return 200%Z;
     now_isoformat := now;
     async_save := Return ();
     save_written := true |}.

(** The first query raises [err]. *)
Definition failing (err : exn) (now : string) : Env :=
  {| get_system_info := Raise err;
     get_device_info := get_device_info (online now);
     get_cover_status := get_cover_status (online now);
     get_supplies := get_supplies (online now);
     get_input_trays := get_input_trays (online now);
     get_display_text := get_display_text (online now);
     get_printer_errors := get_printer_errors (online now);
     http_get := Raise (Exc "TimeoutError" "" None);
     https_get := Raise (Exc "TimeoutError" "" None);
     now_isoformat := now;
     async_save := Return ();
     save_written := true |}.

(** Every query answers, the save raises [err]. *)
Definition save_failing (err : exn) (now : string) : Env :=
  {| get_system_info := get_system_info (online now);
     get_device_info := get_device_info (online now);
     get_cover_status := get_cover_status (online now);
     get_supplies := get_supplies (online now);
     get_input_trays := get_input_trays (online now);
     get_display_text := get_display_text (online now);
     get_printer_errors := get_printer_errors (online now);
     http_get := http_get (online now);
     https_get := https_get (online now);
     now_isoformat := now;
     async_save := Raise err;
     save_written := false |}.

Definition timeout : exn := Exc "TimeoutError" "SNMP request timeout" None.
Definition authentication_failed : exn :=
  Exc "Exception" "authentication failed" None.
Definition malformed : exn := Exc "ValueError" "malformed response" None.
Definition disk_full : exn := Exc "OSError" "No space left on device" None.

Definition monday : string := "2024-01-01T10:00:00".
Definition tuesday : string := "2024-01-02T09:30:00".

(** What a successful cycle on Monday assembles and persists. *)
Definition monday_data : dict :=
  data_of {["description" := VStr "LaserJet"]}
    (<["state" := VStr "idle"]> {["page_count" := VInt 1200]})
    (VStr "closed")
    (VList
       [VDict
          (<["index" := VInt 1]>
           (<["color" := VStr "Black"]> {["percentage" := VInt 42]}))])
    (VList []) (VStr "Ready") VNone true.

Definition monday_record : dict := cache_record monday_data monday printer.

(** Every query answers, but the supplies query answers [None]. *)
Definition without_supplies (now : string) : Env :=
  {| get_system_info := get_system_info (online now);
     get_device_info := get_device_info (online now);
     get_cover_status := get_cover_status (online now);
     get_supplies := Return VNone;
     get_input_trays := get_input_trays (online now);
     get_display_text := get_display_text (online now);
     get_printer_errors := get_printer_errors (online now);
     http_get := http_get (online now);
     https_get := https_get (online now);
     now_isoformat := now;
     async_save := Return ();
     save_written := true |}.

Definition wednesday : string := "2024-01-03T08:15:00".

(** The Kelvin sign U+212A in UTF-8. *)
Definition kelvin_sign : string :=
  String "226" (String "132" (String "170" "")).

(** A shouting device, and one whose message spells NETWORK with the
    Kelvin sign. *)
Definition shouting : exn := Exc "OSError" "NO RESPONSE from device" None.
Definition kelvin_network : exn :=
  Exc "OSError" ("NETWOR" +:+ kelvin_sign +:+ " down") None.

(** The printer answers every query while it is printing: the panel shows
    "Busy". *)
Definition busy (now : string) : Env :=
  {| get_system_info := get_system_info (online now);
     get_device_info := get_device_info (online now);
     get_cover_status := get_cover_status (online now);
     get_supplies := get_supplies (online now);
     get_input_trays := get_input_trays (online now);
     get_display_text := Return (VStr "Busy");
     get_printer_errors := get_printer_errors (online now);
     http_get := http_get (online now);
     https_get := https_get (online now);
     now_isoformat := now;
     async_save := Return ();
     save_written := true |}.

(** What a successful cycle of the busy printer assembles and persists on
    Tuesday. *)
Definition tuesday_data : dict :=
  data_of {["description" := VStr "LaserJet"]}
    (<["state" := VStr "idle"]> {["page_count" := VInt 1200]})
    (VStr "closed")
    (VList
       [VDict
          (<["index" := VInt 1]>
           (<["color" := VStr "Black"]> {["percentage" := VInt 42]}))])
    (VList []) (VStr "Busy") VNone true.

Definition tuesday_record : dict :=
  cache_record tuesday_data tuesday printer.

(** The entry after a restart on Tuesday with Monday's record on disk and
    the busy printer answering. *)
Definition tuesday_entry : Entry :=
  {| host := printer;
     cached_data := monday_record;
     coordinator :=
       {| Coordinator.data := Some (fresh tuesday_data);
          Coordinator.last_update_success := true |} |}.

(** Every query answers and the save returns, but the store could not
    write and only logged it. *)
Definition not_written (now : string) : Env :=
  {| get_system_info := get_system_info (online now);
     get_device_info := get_device_info (online now);
     get_cover_status := get_cover_status (online now);
     get_supplies := get_supplies (online now);
     get_input_trays := get_input_trays (online now);
     get_display_text := get_display_text (online now);
     get_printer_errors := get_printer_errors (online now);
     http_get := http_get (online now);
     https_get := https_get (online now);
     now_isoformat := now;
     async_save := Return ();
     save_written := false |}.

Definition read_error : exn :=
  Exc "HomeAssistantError" "Input/output error" None.

(** The entry as set up on a fresh installation with the printer online:
    nothing on disk, the first cycle succeeds. *)
Definition first_entry : Entry :=
  {| host := printer;
     cached_data := ∅;
     coordinator :=
       {| Coordinator.data := Some (fresh monday_data);
          Coordinator.last_update_success := true |} |}.

(** The entry as set up after a restart on Tuesday with the printer
    switched off and Monday's record on disk. *)
Definition restarted_entry : Entry :=
  {| host := printer;
     cached_data := monday_record;
     coordinator :=
       {| Coordinator.data := Some (stale monday_data (VStr monday));
          Coordinator.last_update_success := true |} |}.

End Scenario.

(** * Properties *)

(** ** Strings and the classifier *)

Section Strings.

Lemma startswith_spec (kw s : string) :
  startswith kw s = true ↔ ∃ suf, s = kw +:+ suf.
Proof.
  revert s; induction kw as [|a kw IH]; intros s; simpl.
  - split; eauto.
  - destruct s as [|b s].
    + split; [discriminate | intros [suf H]; discriminate].
    + rewrite andb_true_iff, IH. split.
      * intros [Hab [suf ->]]. apply Ascii.eqb_eq in Hab as ->. eauto.
      * intros [suf H]. injection H as -> ->.
        split; [apply Ascii.eqb_refl | eauto].
Qed.

Lemma contains_spec (kw s : string) :
  contains kw s = true ↔ ∃ pre suf, s = pre +:+ kw +:+ suf.
Proof.
  induction s as [|b s IH].
  - cbn [contains]. rewrite orb_false_r, startswith_spec. split.
    + intros [suf H]. exists "", suf. exact H.
    + intros [pre [suf H]]. destruct pre; [eauto | discriminate].
  - cbn [contains]. rewrite orb_true_iff, startswith_spec, IH. split.
    + intros [[suf H] | [pre [suf H]]].
      * exists "", suf. exact H.
      * exists (String b pre), suf. simpl. by rewrite H.
    + intros [pre [suf H]]. destruct pre as [|c pre].
      * left. eauto.
      * right. injection H as _ H. eauto.
Qed.

Lemma string_strong_ind (P : string → Prop) :
  (∀ s, (∀ t, String.length t < String.length s → P t) → P s) → ∀ s, P s.
Proof.
  intros H s. remember (String.length s) as n eqn:Hn.
  revert s Hn. induction n as [n IH] using lt_wf_ind.
  intros s ->. apply H. intros t Ht. by apply (IH _ Ht).
Qed.

Lemma lower_cases s :
  s = ""
  ∨ (∃ rest, s = String "196" (String "176" rest)
             ∧ lower s = String "i" (String "204" (String "135" (lower rest))))
  ∨ (∃ rest, s = String "226" (String "132" (String "170" rest))
             ∧ lower s = String "k" (lower rest))
  ∨ (∃ c rest, s = String c rest
               ∧ lower s = String (lower_ascii c) (lower rest)).
Proof.
  destruct s as [|c [|c1 s2]]; [by left | |].
  - right; right; right. by exists c, "".
  - cbn [lower].
    destruct (Ascii.eqb_spec c "196") as [->|Hc];
      [destruct (Ascii.eqb_spec c1 "176") as [->|Hc1] |]; cbn [andb].
    + right; left. by exists s2.
    + right; right; right. exists "196"%char, (String c1 s2).
      split; [done |]. by destruct s2.
    + destruct s2 as [|c2 s3].
      * right; right; right. by exists c, (String c1 "").
      * destruct (Ascii.eqb_spec c "226") as [->|Hc'];
          [destruct (Ascii.eqb_spec c1 "132") as [->|Hc1];
           [destruct (Ascii.eqb_spec c2 "170") as [->|Hc2] |] |]; cbn [andb].
        -- right; right; left. by exists s3.
        -- right; right; right. by eexists _, _.
        -- right; right; right. by eexists _, _.
        -- right; right; right. by eexists _, _.
Qed.

Lemma append_cons c s t : String c s +:+ t = String c (s +:+ t).
Proof. reflexivity. Qed.

Lemma plain_char_facts k :
  plain_char k = true →
  lower_ascii k = k ∧ k ≠ "196"%char ∧ k ≠ "226"%char ∧ k ≠ "204"%char
  ∧ k ≠ "135"%char ∧ k ≠ "132"%char ∧ k ≠ "170"%char ∧ k ≠ "176"%char.
Proof.
  destruct k as [[] [] [] [] [] [] [] []]; vm_compute; intros H;
    try discriminate H; repeat split; discriminate.
Qed.

Lemma capital_facts k :
  is_lower_letter k = true →
  lower_ascii (capital k) = k ∧ capital k ≠ "196"%char
  ∧ capital k ≠ "226"%char ∧ capital k ≠ "132"%char
  ∧ capital k ≠ "170"%char ∧ capital k ≠ "176"%char.
Proof.
  destruct k as [[] [] [] [] [] [] [] []]; vm_compute; intros H;
    try discriminate H; repeat split; discriminate.
Qed.

Lemma lower_ascii_inv c :
  plain_char (lower_ascii c) = true →
  lower_ascii c = c
  ∨ is_lower_letter (lower_ascii c) = true ∧ c = capital (lower_ascii c).
Proof.
  destruct c as [[] [] [] [] [] [] [] []]; vm_compute; intros H;
    try discriminate H; first [by left | by right].
Qed.

Lemma lower_plain c s :
  c ≠ "196"%char → c ≠ "226"%char →
  lower (String c s) = String (lower_ascii c) (lower s).
Proof.
  intros H1 H2.
  destruct (lower_cases (String c s))
    as [H | [(rest & H & _) | [(rest & H & _) | (c' & rest & H & ->)]]];
    by simplify_eq.
Qed.

Lemma lower_kelvin s :
  lower (String "226" (String "132" (String "170" s))) = String "k" (lower s).
Proof. reflexivity. Qed.

Lemma contains_cons kw c s :
  contains kw s = true → contains kw (String c s) = true.
Proof. intros H. cbn [contains]. rewrite H. apply orb_true_r. Qed.

Lemma contains_unfold kw c s :
  contains kw (String c s) = startswith kw (String c s) || contains kw s.
Proof. reflexivity. Qed.

Lemma startswith_app kw s : startswith kw (kw +:+ s) = true.
Proof.
  induction kw as [|k kw IH]; [done |].
  rewrite append_cons. cbn [startswith]. by rewrite Ascii.eqb_refl, IH.
Qed.

Lemma startswith_contains kw s :
  startswith kw s = true → contains kw s = true.
Proof. intros H. destruct s; cbn [contains]; by rewrite H. Qed.

(** Lowering a text that matches the keyword gives the keyword. *)
Lemma matches_lower s kw :
  matches_nocase s kw → plain_keyword kw = true →
  ∀ suf, lower (s +:+ suf) = kw +:+ lower suf.
Proof.
  induction 1 as [|k s kw _ IH|c k s kw Hk -> _ IH|s kw _ IH];
    intros Hkw suf; [done | | |]; cbn [plain_keyword] in Hkw;
    apply andb_true_iff in Hkw as [Hkw Hkw'];
    apply andb_true_iff in Hkw as [Hk0 _];
    rewrite !append_cons.
  - destruct (plain_char_facts k Hk0) as (Hl & ? & ? & _).
    by rewrite lower_plain, Hl, IH.
  - destruct (capital_facts k Hk) as (Hl & ? & ? & _).
    by rewrite lower_plain, Hl, IH.
  - by rewrite lower_kelvin, IH.
Qed.

Lemma contains_lower_prefix kw x :
  safe_head x → contains kw (lower x) = true →
  ∀ pre, contains kw (lower (pre +:+ x)) = true.
Proof.
  intros Hsafe Hx pre.
  induction pre as [pre IH] using string_strong_ind.
  destruct pre as [|c pre']; [done |].
  rewrite append_cons.
  destruct (lower_cases (String c (pre' +:+ x)))
    as [H | [(rest & H & ->) | [(rest & H & ->) | (c' & rest & H & ->)]]];
    [discriminate | | |]; injection H as -> H.
  - destruct pre' as [|c1 pre'']; [cbn in H; by destruct (Hsafe _ _ H) as (_ & _ & ?) |].
    rewrite append_cons in H. injection H as -> <-.
    do 3 apply contains_cons. apply IH. cbn. lia.
  - destruct pre' as [|c1 pre'']; [cbn in H; by destruct (Hsafe _ _ H) as (? & _) |].
    rewrite append_cons in H. injection H as -> H.
    destruct pre'' as [|c2 pre''']; [cbn in H; by destruct (Hsafe _ _ H) as (_ & ? & _) |].
    rewrite append_cons in H. injection H as -> <-.
    apply contains_cons. apply IH. cbn. lia.
  - subst rest. apply contains_cons. apply IH. cbn. lia.
Qed.

Lemma startswith_lower kw :
  plain_keyword kw = true →
  ∀ x, startswith kw (lower x) = true →
       ∃ s suf, x = s +:+ suf ∧ matches_nocase s kw.
Proof.
  induction kw as [|k kw IH]; intros Hkw x Hx.
  - exists "", x. split; [done | constructor].
  - cbn [plain_keyword] in Hkw.
    apply andb_true_iff in Hkw as [Hkw Hkw'].
    apply andb_true_iff in Hkw as [Hk Hi].
    destruct (plain_char_facts k Hk) as (Hl & ? & ? & Hcc & ? & _).
    destruct (lower_cases x)
      as [-> | [(rest & -> & Hlow) | [(rest & -> & Hlow)
                                     | (c & rest & -> & Hlow)]]];
      [discriminate | | |]; rewrite Hlow in Hx; cbn [startswith] in Hx;
      apply andb_true_iff in Hx as [Hk' Hx]; apply Ascii.eqb_eq in Hk'.
    + subst k. cbn in Hi. destruct kw as [|k' kw]; [discriminate |].
      cbn [startswith] in Hx. apply andb_true_iff in Hx as [Hx _].
      apply Ascii.eqb_eq in Hx. subst k'. discriminate Hkw'.
    + subst k. destruct (IH Hkw' _ Hx) as (s & suf & -> & Hs).
      exists (String "226" (String "132" (String "170" s))), suf.
      split; [done | by constructor].
    + destruct (IH Hkw' _ Hx) as (s & suf & -> & Hs).
      exists (String c s), suf. split; [done |].
      subst k. destruct (lower_ascii_inv c Hk) as [Hc | [Hc1 Hc2]].
      * rewrite Hc. by constructor.
      * by apply matches_capital.
Qed.

Lemma contains_lower_nocase kw :
  plain_keyword kw = true → kw ≠ "" →
  ∀ text, contains kw (lower text) = true → contains_nocase kw text.
Proof.
  intros Hkw Hne text.
  induction text as [text IH] using string_strong_ind. intros Hc.
  assert (Hstart : startswith kw (lower text) = true → contains_nocase kw text).
  { intros H. destruct (startswith_lower kw Hkw _ H) as (s & suf & -> & Hs).
    by exists "", s, suf. }
  assert (Hgrow : ∀ pre rest, text = pre +:+ rest →
            String.length rest < String.length text →
            contains kw (lower rest) = true → contains_nocase kw text).
  { intros pre rest -> Hlen H.
    destruct (IH rest Hlen H) as (p & s & suf & -> & Hs).
    exists (pre +:+ p), s, suf. split; [| done].
    clear. induction pre as [|c pre IHp]; [done |].
    by rewrite !append_cons, IHp. }
  destruct kw as [|k kw']; [done |].
  pose proof Hkw as Hkw0. cbn [plain_keyword] in Hkw0.
  apply andb_true_iff in Hkw0 as [Hkw0 _].
  apply andb_true_iff in Hkw0 as [Hk _].
  destruct (plain_char_facts k Hk) as (_ & _ & _ & Hcc & H87 & _).
  destruct (lower_cases text)
    as [-> | [(rest & -> & Hlow) | [(rest & -> & Hlow)
                                   | (c & rest & -> & Hlow)]]].
  - discriminate.
  - rewrite Hlow, contains_unfold in Hc. rewrite <- Hlow in Hc.
    apply orb_true_iff in Hc as [Hc | Hc]; [by apply Hstart |].
    rewrite contains_unfold in Hc. apply orb_true_iff in Hc as [Hc | Hc].
    { cbn [startswith] in Hc. apply andb_true_iff in Hc as [Hc _].
      by apply Ascii.eqb_eq in Hc. }
    rewrite contains_unfold in Hc. apply orb_true_iff in Hc as [Hc | Hc].
    { cbn [startswith] in Hc. apply andb_true_iff in Hc as [Hc _].
      by apply Ascii.eqb_eq in Hc. }
    apply (Hgrow (String "196" (String "176" "")) rest); [done | cbn; lia | done].
  - rewrite Hlow, contains_unfold in Hc. rewrite <- Hlow in Hc.
    apply orb_true_iff in Hc as [Hc | Hc]; [by apply Hstart |].
    apply (Hgrow (String "226" (String "132" (String "170" ""))) rest);
      [done | cbn; lia | done].
  - rewrite Hlow, contains_unfold in Hc. rewrite <- Hlow in Hc.
    apply orb_true_iff in Hc as [Hc | Hc]; [by apply Hstart |].
    apply (Hgrow (String c "") rest); [done | cbn; lia | done].
Qed.

Lemma matches_safe_head s kw suf :
  matches_nocase s kw → plain_keyword kw = true → kw ≠ "" →
  safe_head (s +:+ suf).
Proof.
  intros Hs Hkw Hne c rest.
  destruct Hs as [|k s kw _|c' k s kw Hk -> _|s kw _]; [done | | |];
    rewrite append_cons; intros [= <- _].
  - cbn [plain_keyword] in Hkw.
    apply andb_true_iff in Hkw as [Hkw _].
    apply andb_true_iff in Hkw as [Hk0 _].
    by destruct (plain_char_facts k Hk0) as (_ & _ & _ & _ & _ & ? & ? & ?).
  - by destruct (capital_facts k Hk) as (_ & _ & _ & ? & ? & ?).
  - done.
Qed.

(** The classifier's test, lowering and then searching, finds a keyword
    exactly where the text contains it with case ignored. *)
Lemma contains_lower (kw text : string) :
  plain_keyword kw = true → kw ≠ "" →
  contains kw (lower text) = true ↔ contains_nocase kw text.
Proof.
  intros Hkw Hne. split; [by apply contains_lower_nocase |].
  intros (pre & s & suf & -> & Hs).
  apply contains_lower_prefix.
  - by eapply matches_safe_head.
  - rewrite (matches_lower _ _ Hs Hkw). apply startswith_contains, startswith_app.
Qed.

Lemma connection_keywords_plain kw :
  In kw connection_keywords → plain_keyword kw = true ∧ kw ≠ "".
Proof.
  assert (H : Forall (fun kw => plain_keyword kw = true ∧ kw ≠ "")
                connection_keywords) by (repeat constructor; done).
  intros Hin. by apply (proj1 (Forall_forall _ _) H), list_elem_of_In.
Qed.

End Strings.

(** C6.  The classifier answers "unreachable" ([is_connection_error] is
    true) exactly when the text of the error, compared without regard to
    case, contains one of the nine keywords timeout, unreachable, no route,
    connection, network, host, refused, failed, no response; a text that
    contains none of them is classified as another failure
    ([is_connection_error] is false). *)
Theorem classifier_matches_keywords (err : exn) :
  let keywords :=
    [ "timeout"; "unreachable"; "no route"; "connection"; "network";
      "host"; "refused"; "failed"; "no response" ] in
  (is_connection_error err = true ↔
     ∃ keyword, keyword ∈ keywords ∧ contains_nocase keyword (str err))
  ∧ (is_connection_error err = false ↔
     ∀ keyword, keyword ∈ keywords → ¬ contains_nocase keyword (str err)).
Proof.
  intros keywords.
  assert (Hiff : is_connection_error err = true ↔
            ∃ keyword, keyword ∈ keywords ∧ contains_nocase keyword (str err)).
  { unfold is_connection_error. rewrite existsb_exists.
    change connection_keywords with keywords.
    split; intros (kw & Hin & Hc); exists kw.
    - destruct (connection_keywords_plain kw Hin) as [Hplain Hne].
      apply list_elem_of_In in Hin. by rewrite <- contains_lower.
    - apply list_elem_of_In in Hin.
      destruct (connection_keywords_plain kw Hin) as [Hplain Hne].
      by rewrite contains_lower. }
  split; [exact Hiff |].
  rewrite <- not_true_iff_false, Hiff. split.
  - intros Hno kw Hin Hc. apply Hno. eauto.
  - intros Hall (kw & Hin & Hc). exact (Hall kw Hin Hc).
Qed.

Ltac spell :=
  repeat first
    [ apply matches_nil
    | apply matches_same
    | apply matches_kelvin
    | apply matches_capital; [reflexivity | reflexivity |] ].

Lemma classifier_matches_keywords_witness :
  is_connection_error Scenario.shouting = true
  ∧ is_connection_error Scenario.kelvin_network = true.
Proof.
  split.
  - apply (proj2 (proj1 (classifier_matches_keywords Scenario.shouting))).
    exists "no response". split; [repeat constructor |].
    exists "", "NO RESPONSE", " from device". split; [reflexivity | spell].
  - apply (proj2 (proj1 (classifier_matches_keywords
                           Scenario.kelvin_network))).
    exists "network". split; [repeat constructor |].
    exists "", ("NETWOR" +:+ Scenario.kelvin_sign), " down".
    split; [reflexivity | spell].
Defined.

(** ** The probe *)

Ltac run := unfold mbind, M_bind, mret, M_ret, await, raise, try_except; simpl.

Lemma check_web_interface_run (http https : result Z) :
  ∃ b, (∀ d, check_web_interface http https d = (Return b, d))
       ∧ (b = true ↔ below_500 http ∨ below_500 https).
Proof.
  unfold check_web_interface, probe, pass, below_500. run.
  destruct http as [s1|e1]; [destruct (Z.ltb_spec s1 500) |];
    (destruct https as [s2|e2]; [destruct (Z.ltb_spec s2 500) |]); simpl;
    (eexists; split; [reflexivity |]);
    split; try done; try (intros _; eauto; fail);
    intros [(s & Hs & Hlt) | (s & Hs & Hlt)]; simplify_eq; lia.
Qed.

(** ** The body of the [try] *)

Lemma try_body_query_failure host env d err rest :
  query_failures env = err :: rest →
  try_body host env d = (Raise err, d).
Proof.
  destruct env as [si di cv su tr dt er h1 h2 now sv wr].
  unfold query_failures, try_body; simpl. run.
  destruct si; simpl; [| by intros [= ->]].
  destruct di; simpl; [| by intros [= ->]].
  destruct cv; simpl; [| by intros [= ->]].
  destruct su; simpl; [| by intros [= ->]].
  destruct tr; simpl; [| by intros [= ->]].
  destruct dt; simpl; [| by intros [= ->]].
  destruct er; simpl; [| by intros [= ->]].
  discriminate.
Qed.

Lemma try_body_queries_ok env :
  query_failures env = [] →
  ∃ data, assembled data ∧
    ∀ host d,
      try_body host env d =
        match async_save env with
        | Return _ =>
            (Return (fresh data),
             if save_written env
             then Some (cache_record data (now_isoformat env) host)
             else d)
        | Raise e => (Raise e, d)
        end.
Proof.
  destruct env as [si di cv su tr dt er h1 h2 now sv wr].
  unfold query_failures, try_body; simpl.
  destruct si as [si|]; [| discriminate].
  destruct di as [di|]; [| discriminate].
  destruct cv as [cv|]; [| discriminate].
  destruct su as [su|]; [| discriminate].
  destruct tr as [tr|]; [| discriminate].
  destruct dt as [dt|]; [| discriminate].
  destruct er as [er|]; [| discriminate].
  intros _.
  destruct (check_web_interface_run h1 h2) as (web & Hweb & _).
  exists (data_of si di cv su tr dt er web). split; [constructor |].
  intros host d. run. rewrite Hweb.
  unfold store_async_save. by destruct sv.
Qed.

(** The outcome of the body, by cases on what the collaborators answer. *)
Lemma try_body_cases env :
  (∃ err, (∀ host d, try_body host env d = (Raise err, d))
          ∧ (head (query_failures env) = Some err
             ∨ query_failures env = [] ∧ async_save env = Raise err))
  ∨ (∃ data, assembled data ∧ query_failures env = []
             ∧ async_save env = Return ()
             ∧ captured env data).
Proof.
  destruct (query_failures env) as [|err rest] eqn:Hq.
  - destruct (try_body_queries_ok env Hq) as (data & Hdata & Hrun).
    destruct (async_save env) as [[]|e] eqn:Hsave.
    + right. by exists data.
    + left. exists e. split; [done | by right].
  - left. exists err. split; [| by left].
    intros host d. by eapply try_body_query_failure.
Qed.

Lemma assembled_lookup_is_online data :
  assembled data → data !! "is_online" = None.
Proof. by intros []. Qed.

Lemma assembled_lookup_offline_since data :
  assembled data → data !! "offline_since" = None.
Proof. by intros []. Qed.

Lemma assembled_truthy data : assembled data → truthy (VDict data) = true.
Proof.
  intros []. simpl. rewrite bool_decide_eq_false_2; [done |].
  apply insert_non_empty.
Qed.

(** ** The [except] clause *)

Lemma handler_surfaces cached_data err d :
  truthy (get cached_data "data") && is_connection_error err = false →
  handler cached_data err d =
    (Raise (UpdateFailed ("Error fetching printer data: " +:+ str err) err),
     d).
Proof. intros H. unfold handler. by rewrite H. Qed.

Lemma handler_falls_back cached_data err d cached :
  get cached_data "data" = VDict cached → truthy (VDict cached) = true →
  is_connection_error err = true →
  handler cached_data err d =
    (Return (stale cached (get cached_data "timestamp")), d).
Proof.
  intros Hdata Hne Herr. unfold handler. by rewrite Hdata, Herr, Hne.
Qed.

Lemma handler_keeps_disk cached_data err d :
  (handler cached_data err d).2 = d.
Proof.
  unfold handler.
  destruct (truthy _ && _); [| done]. by destruct (get _ _).
Qed.

Lemma async_update_data_failure host cached_data env d err :
  (try_body host env d).1 = Raise err →
  async_update_data host cached_data env d = handler cached_data err d.
Proof.
  intros H. unfold async_update_data, try_except.
  destruct (try_body_cases env)
    as [(e & Hrun & _)|(? & _ & _ & _ & _ & Hrun)];
    rewrite Hrun in *; simpl in H; by simplify_eq.
Qed.

Lemma async_update_data_success host cached_data env d snapshot d' :
  try_body host env d = (Return snapshot, d') →
  async_update_data host cached_data env d = (Return snapshot, d').
Proof. intros H. unfold async_update_data, try_except. by rewrite H. Qed.

Lemma get_lookup (m : dict) k v : m !! k = Some v → get m k = v.
Proof. intros H. unfold get. by rewrite H. Qed.

Lemma stale_lookup_is_online data ts :
  stale data ts !! "is_online" = Some (VBool false).
Proof. unfold stale. by rewrite lookup_insert_ne, lookup_insert_eq. Qed.

Lemma stale_lookup_offline_since data ts :
  stale data ts !! "offline_since" = Some ts.
Proof. unfold stale. by rewrite lookup_insert_eq. Qed.

Lemma stale_lookup_other data ts k :
  k ≠ "is_online" → k ≠ "offline_since" → stale data ts !! k = data !! k.
Proof. intros. unfold stale. by rewrite !lookup_insert_ne. Qed.

Lemma fresh_lookup_is_online data :
  fresh data !! "is_online" = Some (VBool true).
Proof. unfold fresh. by rewrite lookup_insert_eq. Qed.

Lemma fresh_lookup_other data k :
  k ≠ "is_online" → fresh data !! k = data !! k.
Proof. intros. unfold fresh. by rewrite lookup_insert_ne. Qed.

(** ** Claims about one cycle *)

(** C4, as the code has it.  When a cycle fails with an error classified as
    unreachable while the cache of the closure holds a snapshot, the
    published snapshot is that snapshot with [is_online] false and
    [offline_since] equal to the timestamp stored with it, whatever the
    clock of the failed attempt shows; every other key has the value it has
    in the cached snapshot.  The cache of the closure is the record loaded
    at setup: it can be older than the last successful cycle. *)
Theorem stale_snapshot_keeps_cached_fields
    host cached_data env d err cached timestamp :
  (try_body host env d).1 = Raise err →
  is_connection_error err = true →
  cached_data !! "data" = Some (VDict cached) →
  truthy (VDict cached) = true →
  cached_data !! "timestamp" = Some timestamp →
  ∃ published,
    async_update_data host cached_data env d = (Return published, d)
    ∧ published !! "is_online" = Some (VBool false)
    ∧ published !! "offline_since" = Some timestamp
    ∧ ∀ k, k ≠ "is_online" → k ≠ "offline_since" →
           published !! k = cached !! k.
Proof.
  intros Hfail Hconn Hdata Hne Hts.
  exists (stale cached timestamp).
  rewrite (async_update_data_failure _ _ _ _ _ Hfail).
  rewrite (handler_falls_back _ _ _ cached), (get_lookup _ _ _ Hts);
    [| by apply get_lookup | done | done].
  split; [done |].
  split; [apply stale_lookup_is_online |].
  split; [apply stale_lookup_offline_since |].
  intros k ? ?. by apply stale_lookup_other.
Qed.

Lemma stale_snapshot_keeps_cached_fields_witness :
  ∃ published,
    async_update_data Scenario.printer Scenario.monday_record
      (Scenario.failing Scenario.timeout Scenario.tuesday) None
    = (Return published, None)
    ∧ published !! "is_online" = Some (VBool false)
    ∧ published !! "offline_since" = Some (VStr Scenario.monday)
    ∧ ∀ k, k ≠ "is_online" → k ≠ "offline_since" →
           published !! k = Scenario.monday_data !! k.
Proof.
  apply (stale_snapshot_keeps_cached_fields Scenario.printer
           Scenario.monday_record
           (Scenario.failing Scenario.timeout Scenario.tuesday) None
           Scenario.timeout Scenario.monday_data (VStr Scenario.monday)).
  - reflexivity.
  - reflexivity.
  - reflexivity.
  - reflexivity.
  - reflexivity.
Defined.

(** C4, failing.  After a restart with Monday's record on disk, a cycle
    succeeds on Tuesday: it publishes the panel text "Busy" and writes
    Tuesday's record.  The cycle of Wednesday fails with a timeout.  The
    last good snapshot is Tuesday's, but what is published is Monday's:
    the panel text is "Ready" again and [offline_since] is Monday. *)
Lemma stale_snapshot_is_the_startup_one_not_the_last_good_one :
  async_setup_entry Scenario.printer (Return ())
    (Scenario.busy Scenario.tuesday) (Some Scenario.monday_record)
  = (Return Scenario.tuesday_entry, Some Scenario.tuesday_record)
  ∧ fresh Scenario.tuesday_data !! "display_text" = Some (VStr "Busy")
  ∧ (try_body Scenario.printer
       (Scenario.failing Scenario.timeout Scenario.wednesday)
       (Some Scenario.tuesday_record)).1 = Raise Scenario.timeout
  ∧ is_connection_error Scenario.timeout = true
  ∧ async_update_data Scenario.printer (cached_data Scenario.tuesday_entry)
      (Scenario.failing Scenario.timeout Scenario.wednesday)
      (Some Scenario.tuesday_record)
    = (Return (stale Scenario.monday_data (VStr Scenario.monday)),
       Some Scenario.tuesday_record)
  ∧ stale Scenario.monday_data (VStr Scenario.monday) !! "display_text"
    = Some (VStr "Ready")
  ∧ stale Scenario.monday_data (VStr Scenario.monday) !! "offline_since"
    = Some (VStr Scenario.monday)
  ∧ Scenario.monday ≠ Scenario.tuesday.
Proof. repeat split; try reflexivity. discriminate. Qed.

(** C2, as the code has it.  A cycle that fails with an error classified as
    another failure (its text contains none of the keywords) reports the
    failure whatever the cache holds: the closure raises [UpdateFailed]
    wrapping the error, nothing is written, and the coordinator keeps the
    data it had published and records a failed update. *)
Theorem other_failure_is_reported host cached_data env d err c :
  (try_body host env d).1 = Raise err →
  is_connection_error err = false →
  async_update_data host cached_data env d
  = (Raise (UpdateFailed ("Error fetching printer data: " +:+ str err) err),
     d)
  ∧ Coordinator.async_refresh (async_update_data host cached_data env) c d
    = (Return {| Coordinator.data := Coordinator.data c;
                 Coordinator.last_update_success := false |}, d).
Proof.
  intros Hfail Hother.
  assert (Hrun : async_update_data host cached_data env d
                 = (Raise (UpdateFailed
                             ("Error fetching printer data: " +:+ str err)
                             err), d)).
  { rewrite (async_update_data_failure _ _ _ _ _ Hfail).
    apply handler_surfaces. by rewrite Hother, andb_false_r. }
  split; [exact Hrun |].
  unfold Coordinator.async_refresh. run. by rewrite Hrun.
Qed.

Lemma other_failure_is_reported_witness :
  async_update_data Scenario.printer Scenario.monday_record
    (Scenario.failing Scenario.malformed Scenario.tuesday)
    (Some Scenario.monday_record)
  = (Raise (UpdateFailed "Error fetching printer data: malformed response"
              Scenario.malformed),
     Some Scenario.monday_record)
  ∧ Coordinator.async_refresh
      (async_update_data Scenario.printer Scenario.monday_record
         (Scenario.failing Scenario.malformed Scenario.tuesday))
      {| Coordinator.data := Some (fresh Scenario.monday_data);
         Coordinator.last_update_success := true |}
      (Some Scenario.monday_record)
    = (Return {| Coordinator.data := Some (fresh Scenario.monday_data);
                 Coordinator.last_update_success := false |},
       Some Scenario.monday_record).
Proof.
  apply (other_failure_is_reported Scenario.printer Scenario.monday_record
           (Scenario.failing Scenario.malformed Scenario.tuesday)
           (Some Scenario.monday_record) Scenario.malformed
           {| Coordinator.data := Some (fresh Scenario.monday_data);
              Coordinator.last_update_success := true |}).
  - reflexivity.
  - reflexivity.
Defined.

(** C2, the example of the claim.  An error whose text is "authentication
    failed" contains the keyword "failed": it is classified as unreachable,
    and with a cache present the cycle does not report a failure but
    publishes the cached snapshot, replacing what was published. *)
Lemma authentication_failed_is_answered_from_cache :
  (try_body Scenario.printer
     (Scenario.failing Scenario.authentication_failed Scenario.tuesday)
     (Some Scenario.monday_record)).1
  = Raise Scenario.authentication_failed
  ∧ str Scenario.authentication_failed = "authentication failed"
  ∧ is_connection_error Scenario.authentication_failed = true
  ∧ async_update_data Scenario.printer Scenario.monday_record
      (Scenario.failing Scenario.authentication_failed Scenario.tuesday)
      (Some Scenario.monday_record)
    = (Return (stale Scenario.monday_data (VStr Scenario.monday)),
       Some Scenario.monday_record)
  ∧ Coordinator.async_refresh
      (async_update_data Scenario.printer Scenario.monday_record
         (Scenario.failing Scenario.authentication_failed Scenario.tuesday))
      {| Coordinator.data := Some (fresh Scenario.monday_data);
         Coordinator.last_update_success := true |}
      (Some Scenario.monday_record)
    = (Return {| Coordinator.data :=
                   Some (stale Scenario.monday_data (VStr Scenario.monday));
                 Coordinator.last_update_success := true |},
       Some Scenario.monday_record)
  ∧ stale Scenario.monday_data (VStr Scenario.monday)
    ≠ fresh Scenario.monday_data.
Proof.
  repeat split; try reflexivity.
  intros H. apply (f_equal (lookup "is_online")) in H. discriminate H.
Qed.

(** C3, as the code has it.  When every query of a cycle answers, the
    freshly assembled snapshot is published with [is_online] true provided
    the save returns.  A save that raises is caught by the same [except]
    clause as a failed query: the cycle raises [UpdateFailed] wrapping the
    save error, unless the error is classified as unreachable and the cache
    holds data, in which case the cached snapshot is published as stale.
    The fresh snapshot is not published then. *)
Theorem save_failure_is_handled_like_a_query_failure
    host cached_data env d :
  query_failures env = [] →
  match async_save env with
  | Return _ =>
      ∃ data, assembled data
        ∧ async_update_data host cached_data env d
          = (Return (fresh data),
             if save_written env
             then Some (cache_record data (now_isoformat env) host)
             else d)
        ∧ fresh data !! "is_online" = Some (VBool true)
  | Raise err =>
      (truthy (get cached_data "data") && is_connection_error err = false →
       async_update_data host cached_data env d
       = (Raise (UpdateFailed ("Error fetching printer data: " +:+ str err)
                   err), d))
      ∧ (∀ cached,
           get cached_data "data" = VDict cached →
           truthy (VDict cached) = true →
           is_connection_error err = true →
           async_update_data host cached_data env d
           = (Return (stale cached (get cached_data "timestamp")), d))
  end.
Proof.
  intros Hq.
  destruct (try_body_queries_ok env Hq) as (data & Hdata & Hrun).
  specialize (Hrun host d).
  destruct (async_save env) as [[]|err].
  - exists data. split; [done |]. split; [| apply fresh_lookup_is_online].
    by apply async_update_data_success.
  - assert (Hfail : (try_body host env d).1 = Raise err) by by rewrite Hrun.
    rewrite (async_update_data_failure _ cached_data _ _ _ Hfail). split.
    + apply handler_surfaces.
    + intros cached. apply handler_falls_back.
Qed.

Lemma save_failure_is_handled_like_a_query_failure_witness :
  (truthy (get (∅ : dict) "data")
   && is_connection_error Scenario.disk_full = false →
   async_update_data Scenario.printer ∅
     (Scenario.save_failing Scenario.disk_full Scenario.monday) None
   = (Raise (UpdateFailed
               ("Error fetching printer data: " +:+ str Scenario.disk_full)
               Scenario.disk_full), None))
  ∧ (∀ cached,
       get (∅ : dict) "data" = VDict cached →
       truthy (VDict cached) = true →
       is_connection_error Scenario.disk_full = true →
       async_update_data Scenario.printer ∅
         (Scenario.save_failing Scenario.disk_full Scenario.monday) None
       = (Return (stale cached (get (∅ : dict) "timestamp")), None)).
Proof.
  apply (save_failure_is_handled_like_a_query_failure Scenario.printer ∅
           (Scenario.save_failing Scenario.disk_full Scenario.monday) None).
  reflexivity.
Defined.

(** C3, failing.  Every query answers and the save raises: the cycle does
    not publish the fresh snapshot.  With no cache it raises
    [UpdateFailed]; with a cache and an error text that matches a keyword
    ("write failed") it publishes the cached snapshot as stale. *)
Lemma save_failure_blocks_the_fresh_snapshot :
  query_failures (Scenario.save_failing Scenario.disk_full Scenario.tuesday)
  = []
  ∧ async_update_data Scenario.printer ∅
      (Scenario.save_failing Scenario.disk_full Scenario.tuesday) None
    = (Raise (UpdateFailed
                "Error fetching printer data: No space left on device"
                Scenario.disk_full), None)
  ∧ async_update_data Scenario.printer Scenario.monday_record
      (Scenario.save_failing (Exc "OSError" "write failed" None)
         Scenario.tuesday)
      (Some Scenario.monday_record)
    = (Return (stale Scenario.monday_data (VStr Scenario.monday)),
       Some Scenario.monday_record).
Proof. repeat split; reflexivity. Qed.

(** C7, as the code has it.  When a query of a cycle fails, the body of the
    [try] stops at the first failing query with that error and yields no
    snapshot.  What the cycle then does is decided by the error and the
    cache alone.  If the error is classified as unreachable and the cache
    holds data, the cycle does not fail: it returns the whole cached
    snapshot marked stale (for a cached value that is not a dictionary the
    handler itself raises).  Otherwise the cycle raises [UpdateFailed],
    whose text embeds the error and whose cause is the error.  Nothing
    that is returned contains an answer of the failed cycle. *)
Theorem assembly_is_all_or_nothing host cached_data env d err rest :
  query_failures env = err :: rest →
  try_body host env d = (Raise err, d)
  ∧ async_update_data host cached_data env d
    = (if truthy (get cached_data "data") && is_connection_error err then
         match get cached_data "data" with
         | VDict cached =>
             (Return (stale cached (get cached_data "timestamp")), d)
         | v => (Raise (not_a_dict v), d)
         end
       else
         (Raise (UpdateFailed ("Error fetching printer data: " +:+ str err)
                   err), d))
  ∧ str (UpdateFailed ("Error fetching printer data: " +:+ str err) err)
    = "Error fetching printer data: " +:+ str err
  ∧ cause_of (UpdateFailed ("Error fetching printer data: " +:+ str err) err)
    = Some err.
Proof.
  intros Hq.
  pose proof (try_body_query_failure host env d err rest Hq) as Hrun.
  split; [exact Hrun |].
  assert (Hfail : (try_body host env d).1 = Raise err) by by rewrite Hrun.
  rewrite (async_update_data_failure _ cached_data _ _ _ Hfail).
  split; [| done].
  unfold handler.
  destruct (truthy (get cached_data "data") && is_connection_error err);
    [| done].
  by destruct (get cached_data "data").
Qed.

Lemma assembly_is_all_or_nothing_witness :
  try_body Scenario.printer
    (Scenario.failing Scenario.authentication_failed Scenario.tuesday)
    (Some Scenario.monday_record)
  = (Raise Scenario.authentication_failed, Some Scenario.monday_record)
  ∧ async_update_data Scenario.printer Scenario.monday_record
      (Scenario.failing Scenario.authentication_failed Scenario.tuesday)
      (Some Scenario.monday_record)
    = (if truthy (get Scenario.monday_record "data")
          && is_connection_error Scenario.authentication_failed then
         match get Scenario.monday_record "data" with
         | VDict cached =>
             (Return (stale cached (get Scenario.monday_record "timestamp")),
              Some Scenario.monday_record)
         | v => (Raise (not_a_dict v), Some Scenario.monday_record)
         end
       else
         (Raise (UpdateFailed
                   ("Error fetching printer data: "
                    +:+ str Scenario.authentication_failed)
                   Scenario.authentication_failed),
          Some Scenario.monday_record))
  ∧ str (UpdateFailed
           ("Error fetching printer data: "
            +:+ str Scenario.authentication_failed)
           Scenario.authentication_failed)
    = "Error fetching printer data: " +:+ str Scenario.authentication_failed
  ∧ cause_of (UpdateFailed
                ("Error fetching printer data: "
                 +:+ str Scenario.authentication_failed)
                Scenario.authentication_failed)
    = Some Scenario.authentication_failed.
Proof.
  apply (assembly_is_all_or_nothing Scenario.printer Scenario.monday_record
           (Scenario.failing Scenario.authentication_failed Scenario.tuesday)
           (Some Scenario.monday_record) Scenario.authentication_failed []).
  reflexivity.
Defined.

(** C7, failing.  The first query of the cycle raises a timeout while the
    cache holds Monday's record: the cycle does not fail with an error, it
    returns the cached snapshot. *)
Lemma failed_query_can_end_in_a_published_snapshot :
  query_failures (Scenario.failing Scenario.timeout Scenario.tuesday)
  = [Scenario.timeout]
  ∧ async_update_data Scenario.printer Scenario.monday_record
      (Scenario.failing Scenario.timeout Scenario.tuesday)
      (Some Scenario.monday_record)
    = (Return (stale Scenario.monday_data (VStr Scenario.monday)),
       Some Scenario.monday_record)
  ∧ ∀ e, (async_update_data Scenario.printer Scenario.monday_record
            (Scenario.failing Scenario.timeout Scenario.tuesday)
            (Some Scenario.monday_record)).1 ≠ Raise e.
Proof.
  split; [reflexivity |].
  assert (Hrun :
    async_update_data Scenario.printer Scenario.monday_record
      (Scenario.failing Scenario.timeout Scenario.tuesday)
      (Some Scenario.monday_record)
    = (Return (stale Scenario.monday_data (VStr Scenario.monday)),
       Some Scenario.monday_record)) by reflexivity.
  split; [exact Hrun |].
  intros e. rewrite Hrun. simpl. discriminate.
Qed.

(** C8, as the code has it.  A successful cycle (every query answers and
    the save returns) publishes a snapshot with [is_online] true and no
    [offline_since].  When the store has written, the record on disk is
    replaced by the assembled data of that snapshot, which is the snapshot
    without [is_online] (the key is added after the save), the timestamp
    of the capture and the configured host; when the store has only logged
    a failed write, the disk is as it was.  A cycle that is not
    successful, whether it ends in the cached snapshot or in an error,
    leaves the record on disk as it was: a fallback snapshot is never
    persisted. *)
Theorem successful_cycle_is_online_and_persisted host cached_data env d :
  query_failures env = [] →
  async_save env = Return () →
  (∃ data,
     assembled data
     ∧ async_update_data host cached_data env d
       = (Return (<["is_online" := VBool true]> data),
          if save_written env
          then Some (cache_record data (now_isoformat env) host)
          else d)
     ∧ (<["is_online" := VBool true]> data) !! "is_online"
       = Some (VBool true)
     ∧ (<["is_online" := VBool true]> data) !! "offline_since" = None
     ∧ data !! "is_online" = None)
  ∧ ∀ env' err,
      (try_body host env' d).1 = Raise err →
      (async_update_data host cached_data env' d).2 = d.
Proof.
  intros Hq Hsave. split.
  - destruct (try_body_queries_ok env Hq) as (data & Hdata & Hrun).
    specialize (Hrun host d). rewrite Hsave in Hrun.
    exists data. split; [done |].
    split; [by apply async_update_data_success |].
    split; [apply fresh_lookup_is_online |].
    split; [| by apply assembled_lookup_is_online].
    change (fresh data !! "offline_since" = None).
    rewrite fresh_lookup_other by done.
    by apply assembled_lookup_offline_since.
  - intros env' err Hfail.
    rewrite (async_update_data_failure _ cached_data _ _ _ Hfail).
    apply handler_keeps_disk.
Qed.

Lemma successful_cycle_is_online_and_persisted_witness :
  (∃ data,
     assembled data
     ∧ async_update_data Scenario.printer Scenario.monday_record
         (Scenario.busy Scenario.tuesday) (Some Scenario.monday_record)
       = (Return (<["is_online" := VBool true]> data),
          if save_written (Scenario.busy Scenario.tuesday)
          then Some (cache_record data
                       (now_isoformat (Scenario.busy Scenario.tuesday))
                       Scenario.printer)
          else Some Scenario.monday_record)
     ∧ (<["is_online" := VBool true]> data) !! "is_online"
       = Some (VBool true)
     ∧ (<["is_online" := VBool true]> data) !! "offline_since" = None
     ∧ data !! "is_online" = None)
  ∧ ∀ env' err,
      (try_body Scenario.printer env' (Some Scenario.monday_record)).1
      = Raise err →
      (async_update_data Scenario.printer Scenario.monday_record env'
         (Some Scenario.monday_record)).2 = Some Scenario.monday_record.
Proof.
  apply (successful_cycle_is_online_and_persisted Scenario.printer
           Scenario.monday_record (Scenario.busy Scenario.tuesday)
           (Some Scenario.monday_record)).
  - reflexivity.
  - reflexivity.
Defined.

(** C8, failing.  On Monday every query answers and the store writes: the
    record on disk holds the assembled data, which is not the published
    snapshot, since it lacks [is_online].  With the same answers and a
    store that only logs its failed write, the cycle is as successful and
    publishes the same snapshot, but no record is written at all. *)
Lemma persisted_record_is_not_the_published_snapshot :
  async_update_data Scenario.printer ∅ (Scenario.online Scenario.monday) None
  = (Return (fresh Scenario.monday_data), Some Scenario.monday_record)
  ∧ Scenario.monday_record !! "data" = Some (VDict Scenario.monday_data)
  ∧ Scenario.monday_data !! "is_online" = None
  ∧ fresh Scenario.monday_data !! "is_online" = Some (VBool true)
  ∧ Scenario.monday_data ≠ fresh Scenario.monday_data
  ∧ async_update_data Scenario.printer ∅
      (Scenario.not_written Scenario.monday) None
    = (Return (fresh Scenario.monday_data), None).
Proof.
  repeat split; try reflexivity.
  intros H. apply (f_equal (lookup "is_online")) in H. discriminate H.
Qed.

(** C10.  The probe of the web interface is total: whatever the HTTP and
    the HTTPS request do (a status, an error status, a timeout or another
    raised exception), [check_web_interface] returns a boolean and raises
    nothing; the boolean is true exactly when the HTTP or the HTTPS request
    completes with a status below 500.  Hence whether a cycle fails, and
    with which error, does not depend on the answers to the probe. *)
Theorem check_web_interface_is_total (http https : result Z) :
  (∃ b, (∀ d, check_web_interface http https d = (Return b, d))
        ∧ (b = true ↔ below_500 http ∨ below_500 https))
  ∧ ∀ host env d http' https',
      raised (try_body host (with_probe http https env) d).1
      = raised (try_body host (with_probe http' https' env) d).1.
Proof.
  split; [apply check_web_interface_run |].
  intros host env d http' https'.
  destruct (query_failures env) as [|err rest] eqn:Hq.
  - destruct (try_body_queries_ok (with_probe http https env) Hq)
      as (data & _ & ->).
    destruct (try_body_queries_ok (with_probe http' https' env) Hq)
      as (data' & _ & ->).
    simpl. by destruct (async_save env).
  - by rewrite
      (try_body_query_failure host (with_probe http https env) d err rest Hq),
      (try_body_query_failure host (with_probe http' https' env) d err rest
         Hq).
Qed.

(** ** Claims about setup and runs *)

Lemma async_setup_entry_loaded host env d :
  ∃ c,
    Coordinator.async_refresh (async_update_data host (or_empty d) env)
      Coordinator.init d
    = (Return c, (async_update_data host (or_empty d) env d).2)
    ∧ async_setup_entry host (Return ()) env d
      = (Return {| host := host; cached_data := or_empty d;
                   coordinator := c |},
         (async_update_data host (or_empty d) env d).2).
Proof.
  unfold async_setup_entry, store_async_load, Coordinator.async_refresh. run.
  destruct (async_update_data host (or_empty d) env d) as [[snap|err] d'];
    simpl; eauto.
Qed.

Lemma refresh_run env e d :
  ∃ c,
    Coordinator.async_refresh
      (async_update_data (host e) (cached_data e) env) (coordinator e) d
    = (Return c, (async_update_data (host e) (cached_data e) env d).2)
    ∧ refresh env e d
      = (Return {| host := host e; cached_data := cached_data e;
                   coordinator := c |},
         (async_update_data (host e) (cached_data e) env d).2).
Proof.
  unfold refresh, Coordinator.async_refresh. run.
  destruct (async_update_data (host e) (cached_data e) env d)
    as [[snap|err] d']; simpl; eauto.
Qed.

Lemma refreshes_keep_closure envs : ∀ e d,
  ∃ e' d', refreshes envs e d = (Return e', d')
           ∧ cached_data e' = cached_data e ∧ host e' = host e.
Proof.
  induction envs as [|env envs IH]; intros e d; simpl.
  - by exists e, d.
  - destruct (refresh_run env e d) as (c & _ & Hrun).
    unfold mbind, M_bind. rewrite Hrun.
    destruct (IH {| host := host e; cached_data := cached_data e;
                    coordinator := c |}
                 (async_update_data (host e) (cached_data e) env d).2)
      as (e' & d' & -> & Hc & Hh).
    by exists e', d'.
Qed.

(** C9, as the code has it.  When the read of the store returns, setup
    completes whatever the first cycle does: a record on disk becomes the
    cache of the closure, and no record (or an empty one) becomes the empty
    dictionary, "no cache available".  When the read raises, nothing
    catches the error: setup ends with it. *)
Theorem load_outcome_decides_setup host env d :
  (∃ e d',
     async_setup_entry host (Return ()) env d = (Return e, d')
     ∧ cached_data e
       = match d with
         | Some record => if truthy (VDict record) then record else ∅
         | None => ∅
         end)
  ∧ ∀ err, async_setup_entry host (Raise err) env d = (Raise err, d).
Proof.
  split.
  - destruct (async_setup_entry_loaded host env d) as (c & _ & ->).
    by eexists _, _.
  - done.
Qed.

(** C9, failing.  The read of the store raises while the printer is online
    and a record is on disk: setup does not proceed, it ends with the read
    error. *)
Lemma read_error_fails_setup :
  async_setup_entry Scenario.printer (Raise Scenario.read_error)
    (Scenario.online Scenario.tuesday) (Some Scenario.monday_record)
  = (Raise Scenario.read_error, Some Scenario.monday_record).
Proof. reflexivity. Qed.

(** C1, as the code has it.  The closure falls back on the record loaded at
    setup, and no cycle replaces it: after setup and any number of ticks,
    successful or not, the cache of the closure is still what setup loaded.
    A later cycle that fails with an error classified as unreachable
    publishes the snapshot of that startup record, marked stale, when the
    record holds one; when there was no record on disk at setup, the cycle
    raises [UpdateFailed] and the coordinator keeps what it had published,
    however many cycles have succeeded since. *)
Theorem fallback_reference_is_the_startup_cache address env0 d0 envs :
  ∃ e d e' d',
    async_setup_entry address (Return ()) env0 d0 = (Return e, d)
    ∧ refreshes envs e d = (Return e', d')
    ∧ host e' = address
    ∧ cached_data e' = or_empty d0
    ∧ ∀ env err,
        (try_body address env d').1 = Raise err →
        is_connection_error err = true →
        (∀ cached,
           or_empty d0 !! "data" = Some (VDict cached) →
           truthy (VDict cached) = true →
           refresh env e' d'
           = (Return
                {| host := address; cached_data := or_empty d0;
                   coordinator :=
                     {| Coordinator.data :=
                          Some (stale cached (get (or_empty d0) "timestamp"));
                        Coordinator.last_update_success := true |} |}, d'))
        ∧ (d0 = None →
           async_update_data address (cached_data e') env d'
           = (Raise (UpdateFailed
                       ("Error fetching printer data: " +:+ str err) err), d')
           ∧ refresh env e' d'
             = (Return
                  {| host := address; cached_data := ∅;
                     coordinator :=
                       {| Coordinator.data := Coordinator.data (coordinator e');
                          Coordinator.last_update_success := false |} |},
                d')).
Proof.
  destruct (async_setup_entry_loaded address env0 d0) as (c & _ & Hsetup).
  destruct (refreshes_keep_closure envs
              {| host := address; cached_data := or_empty d0; coordinator := c |}
              (async_update_data address (or_empty d0) env0 d0).2)
    as (e' & d' & Hrun & Hcache & Hhost).
  simpl in Hcache, Hhost.
  eexists _, _, e', d'.
  split; [exact Hsetup |]. split; [exact Hrun |].
  split; [exact Hhost |]. split; [exact Hcache |].
  intros env err Hfail Hconn.
  pose proof (async_update_data_failure address (or_empty d0) env d' err Hfail)
    as Hupd.
  split.
  - intros cached Hdata Htruthy.
    rewrite (handler_falls_back _ _ _ cached) in Hupd;
      [| by apply get_lookup | done | done].
    unfold refresh, Coordinator.async_refresh. run.
    by rewrite Hhost, Hcache, Hupd.
  - intros ->. simpl in *.
    rewrite handler_surfaces in Hupd by done.
    split; [by rewrite Hcache |].
    unfold refresh, Coordinator.async_refresh. run.
    by rewrite Hhost, Hcache, Hupd.
Qed.

(** C1, failing.  On a fresh installation the first cycle succeeds and its
    record is written; the next cycle fails with a timeout.  The snapshot of
    the successful cycle is not published as stale: the closure still has
    the empty cache of setup, the cycle raises [UpdateFailed], and the
    coordinator keeps the online snapshot with a failed update. *)
Lemma successful_cycle_does_not_replace_the_fallback :
  async_setup_entry Scenario.printer (Return ())
    (Scenario.online Scenario.monday) None
  = (Return Scenario.first_entry, Some Scenario.monday_record)
  ∧ (try_body Scenario.printer
       (Scenario.failing Scenario.timeout Scenario.tuesday)
       (Some Scenario.monday_record)).1 = Raise Scenario.timeout
  ∧ is_connection_error Scenario.timeout = true
  ∧ async_update_data Scenario.printer (cached_data Scenario.first_entry)
      (Scenario.failing Scenario.timeout Scenario.tuesday)
      (Some Scenario.monday_record)
    = (Raise (UpdateFailed
                "Error fetching printer data: SNMP request timeout"
                Scenario.timeout),
       Some Scenario.monday_record)
  ∧ refresh (Scenario.failing Scenario.timeout Scenario.tuesday)
      Scenario.first_entry (Some Scenario.monday_record)
    = (Return
         {| host := Scenario.printer; cached_data := ∅;
            coordinator :=
              {| Coordinator.data := Some (fresh Scenario.monday_data);
                 Coordinator.last_update_success := false |} |},
       Some Scenario.monday_record).
Proof. repeat split; reflexivity. Qed.

(** ** The invariant of published snapshots *)

Lemma captured_assembled env data : captured env data → assembled data.
Proof. by intros [Hdata _]. Qed.

Lemma record_of_mono env history record :
  record_of history record → record_of (env :: history) record.
Proof.
  intros (env0 & data & host & Hin & Hcap & ->).
  exists env0, data, host. split; [by apply list_elem_of_further | done].
Qed.

Lemma snapshot_of_mono env history snapshot :
  snapshot_of history snapshot → snapshot_of (env :: history) snapshot.
Proof.
  intros (env0 & data & Hin & Hcap & Hshape).
  exists env0, data. split; [by apply list_elem_of_further | done].
Qed.

Lemma handler_return cached_data err d snapshot d' :
  handler cached_data err d = (Return snapshot, d') →
  ∃ cached,
    get cached_data "data" = VDict cached
    ∧ snapshot = stale cached (get cached_data "timestamp") ∧ d' = d.
Proof.
  unfold handler.
  destruct (truthy _ && _); [| discriminate].
  destruct (get cached_data "data") eqn:Hdata; try discriminate.
  intros [= <- <-]. eauto.
Qed.

Lemma or_empty_ok history d :
  disk_ok history d → cache_ok history (or_empty d).
Proof.
  intros Hd. destruct d as [record|]; simpl; [| by left].
  destruct (negb _); [| by left]. right. by apply Hd.
Qed.

(** One cycle keeps the disk well formed and returns only snapshots that
    come whole from one cycle. *)
Lemma cycle_ok host cached_data env history d :
  cache_ok history cached_data → disk_ok history d →
  disk_ok (env :: history) (async_update_data host cached_data env d).2
  ∧ ∀ snapshot,
      (async_update_data host cached_data env d).1 = Return snapshot →
      snapshot_of (env :: history) snapshot.
Proof.
  intros Hcache Hdisk.
  destruct (try_body_cases env)
    as [(err & Hrun & _)|(data & Hdata & _ & _ & Hcap)].
  - assert (Hfail : (try_body host env d).1 = Raise err) by by rewrite Hrun.
    rewrite (async_update_data_failure _ cached_data _ _ _ Hfail).
    rewrite handler_keeps_disk. split.
    + intros record ->. by apply record_of_mono, Hdisk.
    + intros snapshot Hret.
      destruct (handler cached_data err d) as [r d'] eqn:Hh.
      simpl in Hret; subst r.
      apply handler_return in Hh as (cached & Hget & -> & _).
      apply snapshot_of_mono.
      destruct Hcache as [-> | (env0 & data & h & Hin & Hcap & ->)];
        [discriminate Hget |].
      unfold get, cache_record in *.
      rewrite lookup_insert_eq in Hget. simpl in Hget.
      injection Hget as <-.
      rewrite lookup_insert_ne, lookup_insert_eq by done. simpl.
      exists env0, data. eauto.
  - rewrite (async_update_data_success _ _ _ _ _ _ (proj2 Hcap host d)).
    split.
    + simpl. destruct (save_written env).
      * intros record [= <-]. exists env, data, host.
        split; [apply list_elem_of_here | done].
      * intros record ->. by apply record_of_mono, Hdisk.
    + intros snapshot [= <-]. exists env, data.
      split; [apply list_elem_of_here | eauto].
Qed.

Lemma refresh_ok host cached_data env c history d :
  cache_ok history cached_data → disk_ok history d →
  (∀ snapshot, Coordinator.data c = Some snapshot →
               snapshot_of history snapshot) →
  ∃ c',
    Coordinator.async_refresh (async_update_data host cached_data env) c d
    = (Return c', (async_update_data host cached_data env d).2)
    ∧ ∀ snapshot, Coordinator.data c' = Some snapshot →
                  snapshot_of (env :: history) snapshot.
Proof.
  intros Hcache Hdisk Hc.
  destruct (cycle_ok host cached_data env history d Hcache Hdisk)
    as [_ Hsnap].
  unfold Coordinator.async_refresh. run.
  destruct (async_update_data host cached_data env d) as [[snap|err] d'];
    simpl in *; eexists; (split; [reflexivity |]); simpl.
  - intros snapshot [= <-]. by apply Hsnap.
  - intros snapshot Hs. by apply snapshot_of_mono, Hc.
Qed.

Lemma cache_ok_mono env history cached_data :
  cache_ok history cached_data → cache_ok (env :: history) cached_data.
Proof. intros [-> | H]; [by left | right; by apply record_of_mono]. Qed.

Lemma reachable_ok history d oe :
  reachable history d oe → disk_ok history d ∧ entry_ok history oe.
Proof.
  induction 1 as [|history d oe host env _ [IHd _]
                  |history d oe host env err _ [IHd _]
                  |history d e env _ [IHd IHe]].
  - split; [by intros ? | by intros ?].
  - pose proof (or_empty_ok _ _ IHd) as Hcache.
    destruct (cycle_ok host (or_empty d) env history d Hcache IHd)
      as [Hdisk _].
    destruct (refresh_ok host (or_empty d) env Coordinator.init history d
                Hcache IHd) as (c & Hc & Hpub); [by intros ? |].
    unfold async_setup_entry, store_async_load. run. rewrite Hc. simpl.
    split; [exact Hdisk |].
    intros e [= <-]. simpl. split; [by apply cache_ok_mono | exact Hpub].
  - simpl. split; [exact IHd | by intros ?].
  - destruct (IHe e eq_refl) as [Hcache Hpub].
    destruct (cycle_ok (host e) (cached_data e) env history d Hcache IHd)
      as [Hdisk _].
    destruct (refresh_ok (host e) (cached_data e) env (coordinator e)
                history d Hcache IHd Hpub) as (c & Hc & Hpub').
    unfold refresh. run. rewrite Hc. simpl.
    split; [exact Hdisk |].
    intros e' [= <-]. simpl. split; [by apply cache_ok_mono | exact Hpub'].
Qed.

(** C5.  In every state a run can reach, the published snapshot has
    [offline_since] exactly when [is_online] is false, and it comes whole
    from one successful cycle of the run: it is either what that cycle
    returned (online, no [offline_since]) or the data of that cycle marked
    offline since the time of that capture.  No snapshot mixes the fields
    of two cycles. *)
Theorem published_snapshot_invariant history d e snapshot :
  reachable history d (Some e) →
  Coordinator.data (coordinator e) = Some snapshot →
  (is_Some (snapshot !! "offline_since")
   ↔ snapshot !! "is_online" = Some (VBool false))
  ∧ ∃ env data,
      env ∈ history ∧ captured env data
      ∧ (snapshot = fresh data
         ∧ snapshot !! "is_online" = Some (VBool true)
         ∧ snapshot !! "offline_since" = None
         ∨ snapshot = stale data (VStr (now_isoformat env))
           ∧ snapshot !! "is_online" = Some (VBool false)
           ∧ snapshot !! "offline_since"
             = Some (VStr (now_isoformat env))).
Proof.
  intros Hreach Hpub.
  destruct (reachable_ok _ _ _ Hreach) as [_ Hentry].
  destruct (Hentry e eq_refl) as [_ Hsnap].
  destruct (Hsnap snapshot Hpub) as (env & data & Hin & Hcap & Hshape).
  pose proof (captured_assembled _ _ Hcap) as Hdata.
  assert (Hfresh : fresh data !! "offline_since" = None).
  { rewrite fresh_lookup_other by done.
    by apply assembled_lookup_offline_since. }
  destruct Hshape as [-> | ->].
  - split.
    + rewrite Hfresh, fresh_lookup_is_online.
      split; [by intros [? ?] | discriminate].
    + exists env, data. split; [done |]. split; [done |]. left.
      by rewrite fresh_lookup_is_online.
  - split.
    + rewrite stale_lookup_offline_since, stale_lookup_is_online.
      split; [done | by eauto].
    + exists env, data. split; [done |]. split; [done |]. right.
      by rewrite stale_lookup_offline_since, stale_lookup_is_online.
Qed.

Lemma published_snapshot_invariant_witness :
  (is_Some (stale Scenario.monday_data (VStr Scenario.monday)
            !! "offline_since")
   ↔ stale Scenario.monday_data (VStr Scenario.monday) !! "is_online"
     = Some (VBool false))
  ∧ ∃ env data,
      env ∈ [Scenario.failing Scenario.timeout Scenario.tuesday;
             Scenario.online Scenario.monday]
      ∧ captured env data
      ∧ (stale Scenario.monday_data (VStr Scenario.monday) = fresh data
         ∧ stale Scenario.monday_data (VStr Scenario.monday) !! "is_online"
           = Some (VBool true)
         ∧ stale Scenario.monday_data (VStr Scenario.monday)
           !! "offline_since" = None
         ∨ stale Scenario.monday_data (VStr Scenario.monday)
           = stale data (VStr (now_isoformat env))
           ∧ stale Scenario.monday_data (VStr Scenario.monday) !! "is_online"
             = Some (VBool false)
           ∧ stale Scenario.monday_data (VStr Scenario.monday)
             !! "offline_since" = Some (VStr (now_isoformat env))).
Proof.
  apply (published_snapshot_invariant
           [Scenario.failing Scenario.timeout Scenario.tuesday;
            Scenario.online Scenario.monday]
           (Some Scenario.monday_record) Scenario.restarted_entry
           (stale Scenario.monday_data (VStr Scenario.monday))).
  - exact (reach_setup _ _ _ Scenario.printer
             (Scenario.failing Scenario.timeout Scenario.tuesday)
             (reach_setup _ _ _ Scenario.printer
                (Scenario.online Scenario.monday) reach_install)).
  - reflexivity.
Defined.

(** * Further properties of the refresh cycle *)

Lemma try_body_return_inv host env d snapshot d' :
  try_body host env d = (Return snapshot, d') →
  ∃ si di cv su tr dt er web,
    get_system_info env = Return si ∧ get_device_info env = Return di
    ∧ get_cover_status env = Return cv ∧ get_supplies env = Return su
    ∧ get_input_trays env = Return tr ∧ get_display_text env = Return dt
    ∧ get_printer_errors env = Return er
    ∧ snapshot = fresh (data_of si di cv su tr dt er web)
    ∧ d' = if save_written env
           then Some (cache_record (data_of si di cv su tr dt er web)
                        (now_isoformat env) host)
           else d.
Proof.
  destruct env as [si di cv su tr dt er h1 h2 now sv wr].
  unfold try_body; simpl. run.
  destruct si as [si|]; simpl; [| discriminate].
  destruct di as [di|]; simpl; [| discriminate].
  destruct cv as [cv|]; simpl; [| discriminate].
  destruct su as [su|]; simpl; [| discriminate].
  destruct tr as [tr|]; simpl; [| discriminate].
  destruct dt as [dt|]; simpl; [| discriminate].
  destruct er as [er|]; simpl; [| discriminate].
  destruct (check_web_interface_run h1 h2) as (web & Hweb & _).
  rewrite Hweb. unfold store_async_save.
  destruct sv as [[]|]; [| discriminate].
  intros [= <- <-]. by exists si, di, cv, su, tr, dt, er, web.
Qed.

Lemma fresh_truthy data : truthy (VDict (fresh data)) = true.
Proof.
  simpl. rewrite bool_decide_eq_false_2; [done | apply insert_non_empty].
Qed.

Lemma stale_truthy data ts : truthy (VDict (stale data ts)) = true.
Proof.
  simpl. rewrite bool_decide_eq_false_2; [done | apply insert_non_empty].
Qed.

Lemma async_update_data_fallback host cached_data env d err cached :
  (try_body host env d).1 = Raise err →
  is_connection_error err = true →
  cached_data !! "data" = Some (VDict cached) →
  truthy (VDict cached) = true →
  async_update_data host cached_data env d
  = (Return (stale cached (get cached_data "timestamp")), d).
Proof.
  intros Hfail Hconn Hdata Hne.
  rewrite (async_update_data_failure _ _ _ _ _ Hfail).
  apply handler_falls_back; [by apply get_lookup | done | done].
Qed.

Lemma failure_without_cache_is_reported_aux host cached_data env d err :
  (try_body host env d).1 = Raise err →
  truthy (get cached_data "data") = false →
  async_update_data host cached_data env d = handler cached_data err d
  ∧ handler cached_data err d
    = (Raise (UpdateFailed ("Error fetching printer data: " +:+ str err) err),
       d).
Proof.
  intros Hfail Hnone. split.
  - by apply async_update_data_failure.
  - apply handler_surfaces. by rewrite Hnone.
Qed.

(** Without cached data every failing cycle is reported, whatever the
    classifier says: the closure raises [UpdateFailed] wrapping the error
    and leaves the disk as it was. *)
Theorem failure_without_cache_is_reported host cached_data env d err :
  (try_body host env d).1 = Raise err →
  truthy (get cached_data "data") = false →
  async_update_data host cached_data env d
  = (Raise (UpdateFailed ("Error fetching printer data: " +:+ str err) err),
     d).
Proof.
  intros Hfail Hnone.
  destruct (failure_without_cache_is_reported_aux _ _ _ _ _ Hfail Hnone)
    as [-> ->].
  done.
Qed.

Lemma failure_without_cache_is_reported_witness :
  async_update_data Scenario.printer ∅
    (Scenario.failing Scenario.timeout Scenario.tuesday) None
  = (Raise (UpdateFailed
              ("Error fetching printer data: " +:+ str Scenario.timeout)
              Scenario.timeout), None).
Proof.
  apply (failure_without_cache_is_reported Scenario.printer ∅
           (Scenario.failing Scenario.timeout Scenario.tuesday) None
           Scenario.timeout).
  - reflexivity.
  - reflexivity.
Defined.

(** Round trip through the store.  When the store has written the record
    of a successful cycle, that record is what a later setup loads, and a
    first cycle of that setup failing with an error classified as
    unreachable publishes the snapshot of the successful cycle again:
    [is_online] is false, [offline_since] is the time of the capture,
    every other key is as it was published. *)
Theorem restart_restores_the_last_capture
    host env d snapshot d1 host' env' err :
  try_body host env d = (Return snapshot, d1) →
  save_written env = true →
  (try_body host' env' d1).1 = Raise err →
  is_connection_error err = true →
  ∃ published,
    async_update_data host' (or_empty d1) env' d1 = (Return published, d1)
    ∧ published !! "is_online" = Some (VBool false)
    ∧ published !! "offline_since" = Some (VStr (now_isoformat env))
    ∧ ∀ k, k ≠ "is_online" → k ≠ "offline_since" →
           published !! k = snapshot !! k.
Proof.
  intros Hok Hwritten Hfail Hconn.
  destruct (try_body_return_inv _ _ _ _ _ Hok)
    as (si & di & cv & su & tr & dt & er & web & _ & _ & _ & _ & _ & _ & _
        & -> & ->).
  rewrite Hwritten in *.
  set (data := data_of si di cv su tr dt er web) in *.
  assert (Hdata : assembled data) by constructor.
  assert (Hload : or_empty (Some (cache_record data (now_isoformat env) host))
                  = cache_record data (now_isoformat env) host).
  { unfold or_empty. simpl. rewrite bool_decide_eq_false_2; [done |].
    apply insert_non_empty. }
  rewrite Hload.
  exists (stale data (VStr (now_isoformat env))).
  split.
  { by rewrite (async_update_data_fallback _ _ _ _ err data);
      [| | | | apply assembled_truthy]. }
  split; [apply stale_lookup_is_online |].
  split; [apply stale_lookup_offline_since |].
  intros k Hk1 Hk2. by rewrite stale_lookup_other, fresh_lookup_other.
Qed.

Lemma restart_restores_the_last_capture_witness :
  ∃ published,
    async_update_data Scenario.printer
      (or_empty (Some Scenario.monday_record))
      (Scenario.failing Scenario.timeout Scenario.tuesday)
      (Some Scenario.monday_record)
    = (Return published, Some Scenario.monday_record)
    ∧ published !! "is_online" = Some (VBool false)
    ∧ published !! "offline_since"
      = Some (VStr (now_isoformat (Scenario.online Scenario.monday)))
    ∧ ∀ k, k ≠ "is_online" → k ≠ "offline_since" →
           published !! k = fresh Scenario.monday_data !! k.
Proof.
  apply (restart_restores_the_last_capture Scenario.printer
           (Scenario.online Scenario.monday) None
           (fresh Scenario.monday_data) (Some Scenario.monday_record)
           Scenario.printer
           (Scenario.failing Scenario.timeout Scenario.tuesday)
           Scenario.timeout).
  - reflexivity.
  - reflexivity.
  - reflexivity.
  - reflexivity.
Defined.

Lemma refresh_fallback env e d cached err rest :
  cached_data e !! "data" = Some (VDict cached) →
  truthy (VDict cached) = true →
  query_failures env = err :: rest →
  is_connection_error err = true →
  refresh env e d
  = (Return
       {| host := host e; cached_data := cached_data e;
          coordinator :=
            {| Coordinator.data :=
                 Some (stale cached (get (cached_data e) "timestamp"));
               Coordinator.last_update_success := true |} |}, d).
Proof.
  intros Hdata Htruthy Hq Hconn.
  assert (Hfail : (try_body (host e) env d).1 = Raise err)
    by by rewrite (try_body_query_failure _ _ _ err rest).
  unfold refresh, Coordinator.async_refresh. run.
  by rewrite (async_update_data_fallback _ _ _ _ err cached).
Qed.

(** While the printer stays unreachable, every tick publishes the same
    stale snapshot: [offline_since] does not advance from one failed cycle
    to the next, and the record on disk is not touched. *)
Theorem repeated_failures_keep_the_stale_snapshot envs e d cached :
  cached_data e !! "data" = Some (VDict cached) →
  truthy (VDict cached) = true →
  envs ≠ [] →
  Forall
    (fun env => ∃ err rest,
       query_failures env = err :: rest ∧ is_connection_error err = true)
    envs →
  refreshes envs e d
  = (Return
       {| host := host e; cached_data := cached_data e;
          coordinator :=
            {| Coordinator.data :=
                 Some (stale cached (get (cached_data e) "timestamp"));
               Coordinator.last_update_success := true |} |}, d).
Proof.
  intros Hdata Htruthy Hne Hall. revert e Hdata.
  induction Hall as [|env envs (err & rest & Hq & Hconn) Hall IH];
    intros e Hdata; [done |].
  simpl. unfold mbind, M_bind.
  rewrite (refresh_fallback env e d cached err rest) by done.
  destruct envs as [|env' envs']; [done |].
  by rewrite IH.
Qed.

Lemma repeated_failures_keep_the_stale_snapshot_witness :
  refreshes
    [Scenario.failing Scenario.timeout Scenario.tuesday;
     Scenario.failing Scenario.authentication_failed Scenario.tuesday]
    Scenario.restarted_entry (Some Scenario.monday_record)
  = (Return
       {| host := host Scenario.restarted_entry;
          cached_data := cached_data Scenario.restarted_entry;
          coordinator :=
            {| Coordinator.data :=
                 Some (stale Scenario.monday_data
                         (get (cached_data Scenario.restarted_entry)
                            "timestamp"));
               Coordinator.last_update_success := true |} |},
     Some Scenario.monday_record).
Proof.
  apply (repeated_failures_keep_the_stale_snapshot
           [Scenario.failing Scenario.timeout Scenario.tuesday;
            Scenario.failing Scenario.authentication_failed Scenario.tuesday]
           Scenario.restarted_entry (Some Scenario.monday_record)
           Scenario.monday_data).
  - reflexivity.
  - reflexivity.
  - discriminate.
  - repeat constructor.
    + exists Scenario.timeout, []. split; reflexivity.
    + exists Scenario.authentication_failed, []. split; reflexivity.
Defined.

Lemma append_assoc (a b c : string) : (a +:+ b) +:+ c = a +:+ (b +:+ c).
Proof.
  induction a as [|x a IH]; [done |].
  change (String x ((a +:+ b) +:+ c) = String x (a +:+ (b +:+ c))).
  by rewrite IH.
Qed.

(** The classifier looks for the keywords anywhere in the text: an error
    classified as unreachable stays so when its text is embedded in a
    longer one, as in the message of the [UpdateFailed] the closure
    raises. *)
Theorem classifier_ignores_surrounding_text err cls pre suf cause :
  is_connection_error err = true →
  is_connection_error (Exc cls (pre +:+ str err +:+ suf) cause) = true.
Proof.
  unfold is_connection_error. rewrite !existsb_exists.
  intros (kw & Hin & Hc). exists kw. split; [done |].
  destruct (connection_keywords_plain kw Hin) as [Hplain Hne].
  apply contains_lower in Hc as (p & s & q & Hm & Hs); [| done | done].
  apply contains_lower; [done | done |].
  exists (pre +:+ p), s, (q +:+ suf). split; [| done].
  change (str (Exc cls (pre +:+ str err +:+ suf) cause))
    with (pre +:+ str err +:+ suf).
  by rewrite Hm, !append_assoc.
Qed.

Lemma classifier_ignores_surrounding_text_witness :
  is_connection_error
    (Exc "UpdateFailed"
       ("Error fetching printer data: " +:+ str Scenario.timeout +:+ "")
       (Some Scenario.timeout)) = true.
Proof.
  apply (classifier_ignores_surrounding_text Scenario.timeout "UpdateFailed"
           "Error fetching printer data: " "" (Some Scenario.timeout)).
  reflexivity.
Defined.

(** A successful cycle publishes under [info] the system information
    overlaid with the device information: on a key both queries answer, the
    device information wins.  Under [status] it publishes the device
    information itself. *)
Theorem fresh_snapshot_merges_info host env d snapshot d' si di :
  try_body host env d = (Return snapshot, d') →
  get_system_info env = Return si →
  get_device_info env = Return di →
  ∃ info,
    snapshot !! "info" = Some (VDict info)
    ∧ (∀ k, info !! k
            = match di !! k with
              | Some v => Some v
              | None => si !! k
              end)
    ∧ snapshot !! "status" = Some (VDict di).
Proof.
  intros Hok Hsi Hdi.
  destruct (try_body_return_inv _ _ _ _ _ Hok)
    as (si' & di' & cv & su & tr & dt & er & web & Hsi' & Hdi' & _ & _ & _
        & _ & _ & -> & _).
  rewrite Hsi in Hsi'. rewrite Hdi in Hdi'. simplify_eq.
  exists (di' ∪ si'). split; [done |]. split; [| done].
  intros k. rewrite lookup_union. by destruct (di' !! k), (si' !! k).
Qed.

Lemma fresh_snapshot_merges_info_witness :
  ∃ info,
    fresh Scenario.monday_data !! "info" = Some (VDict info)
    ∧ (∀ k, info !! k
            = match (<["state" := VStr "idle"]>
                       {["page_count" := VInt 1200]} : dict) !! k with
              | Some v => Some v
              | None => ({["description" := VStr "LaserJet"]} : dict) !! k
              end)
    ∧ fresh Scenario.monday_data !! "status"
      = Some (VDict (<["state" := VStr "idle"]>
                       {["page_count" := VInt 1200]})).
Proof.
  apply (fresh_snapshot_merges_info Scenario.printer
           (Scenario.online Scenario.monday) None
           (fresh Scenario.monday_data) (Some Scenario.monday_record)).
  - reflexivity.
  - reflexivity.
  - reflexivity.
Defined.

(** * Properties of the sensor platform *)

Lemma with_data_fresh {A} data (dflt : A) body :
  with_data (Some (fresh data)) dflt body = body (fresh data).
Proof. unfold with_data. by rewrite fresh_truthy. Qed.

Lemma with_data_stale {A} data ts (dflt : A) body :
  with_data (Some (stale data ts)) dflt body = body (stale data ts).
Proof. unfold with_data. by rewrite stale_truthy. Qed.

Lemma is_printer_online_fresh data :
  PrinterSensorBase.is_printer_online (Some (fresh data)) = VBool true.
Proof.
  unfold PrinterSensorBase.is_printer_online. rewrite with_data_fresh.
  unfold get_or. by rewrite fresh_lookup_is_online.
Qed.

Lemma is_printer_online_stale data ts :
  PrinterSensorBase.is_printer_online (Some (stale data ts)) = VBool false.
Proof.
  unfold PrinterSensorBase.is_printer_online. rewrite with_data_stale.
  unfold get_or. by rewrite stale_lookup_is_online.
Qed.

Lemma get_or_fresh data k dflt :
  k ≠ "is_online" → get_or (fresh data) k dflt = get_or data k dflt.
Proof. intros. unfold get_or. by rewrite fresh_lookup_other. Qed.

Lemma get_or_stale data ts k dflt :
  k ≠ "is_online" → k ≠ "offline_since" →
  get_or (stale data ts) k dflt = get_or data k dflt.
Proof. intros. unfold get_or. by rewrite stale_lookup_other. Qed.

(** After a successful cycle the status entity shows the [state] the device
    information holds, and "unknown" when it holds none. *)
Theorem status_sensor_shows_device_state host env d snapshot d' di :
  try_body host env d = (Return snapshot, d') →
  get_device_info env = Return di →
  PrinterStatusSensor.native_value (Some snapshot)
  = Return (get_or di "state" (VStr "unknown")).
Proof.
  intros Hok Hdi.
  destruct (try_body_return_inv _ _ _ _ _ Hok)
    as (si & di' & cv & su & tr & dt & er & web & _ & Hdi' & _ & _ & _
        & _ & _ & -> & _).
  rewrite Hdi in Hdi'. simplify_eq.
  unfold PrinterStatusSensor.native_value.
  by rewrite with_data_fresh, is_printer_online_fresh.
Qed.

Lemma status_sensor_shows_device_state_witness :
  PrinterStatusSensor.native_value (Some (fresh Scenario.monday_data))
  = Return
      (get_or (<["state" := VStr "idle"]> {["page_count" := VInt 1200]})
         "state" (VStr "unknown")).
Proof.
  apply (status_sensor_shows_device_state Scenario.printer
           (Scenario.online Scenario.monday) None
           (fresh Scenario.monday_data) (Some Scenario.monday_record)).
  - reflexivity.
  - reflexivity.
Defined.

(** Whenever a failed cycle ends in a published snapshot, the status entity
    shows "offline", whatever state the cached snapshot recorded; the
    entities stay available and the printer counts as not online. *)
Theorem status_sensor_shows_offline_on_fallback
    host cached_data env d err published d' :
  (try_body host env d).1 = Raise err →
  async_update_data host cached_data env d = (Return published, d') →
  PrinterStatusSensor.native_value (Some published) = Return (VStr "offline")
  ∧ truthy (PrinterSensorBase.is_printer_online (Some published)) = false
  ∧ PrinterSensorBase.available (Some published) = true.
Proof.
  intros Hfail Hrun.
  rewrite (async_update_data_failure _ _ _ _ _ Hfail) in Hrun.
  apply handler_return in Hrun as (cached & _ & -> & _).
  unfold PrinterStatusSensor.native_value.
  by rewrite with_data_stale, is_printer_online_stale.
Qed.

Lemma status_sensor_shows_offline_on_fallback_witness :
  PrinterStatusSensor.native_value
    (Some (stale Scenario.monday_data (VStr Scenario.monday)))
  = Return (VStr "offline")
  ∧ truthy
      (PrinterSensorBase.is_printer_online
         (Some (stale Scenario.monday_data (VStr Scenario.monday)))) = false
  ∧ PrinterSensorBase.available
      (Some (stale Scenario.monday_data (VStr Scenario.monday))) = true.
Proof.
  apply (status_sensor_shows_offline_on_fallback Scenario.printer
           Scenario.monday_record
           (Scenario.failing Scenario.timeout Scenario.tuesday)
           (Some Scenario.monday_record) Scenario.timeout
           (stale Scenario.monday_data (VStr Scenario.monday))
           (Some Scenario.monday_record)).
  - reflexivity.
  - reflexivity.
Defined.

(** After a successful cycle the page count entity shows the [total] of the
    [page_counts] the device information holds; when the device information
    has no [page_counts], it shows its [page_count], or nothing. *)
Theorem page_count_sensor_falls_back_on_page_count
    host env d snapshot d' di :
  try_body host env d = (Return snapshot, d') →
  get_device_info env = Return di →
  PrinterPageCountSensor.native_value (Some snapshot)
  = match di !! "page_counts" with
    | Some page_counts => py_get page_counts "total" VNone
    | None => Return (get di "page_count")
    end.
Proof.
  intros Hok Hdi.
  destruct (try_body_return_inv _ _ _ _ _ Hok)
    as (si & di' & cv & su & tr & dt & er & web & _ & Hdi' & _ & _ & _
        & _ & _ & -> & _).
  rewrite Hdi in Hdi'. simplify_eq.
  unfold PrinterPageCountSensor.native_value.
  rewrite with_data_fresh, get_or_fresh by done.
  unfold data_of, get_or at 1.
  rewrite lookup_insert_ne, lookup_insert_ne, lookup_insert_ne,
    lookup_insert_eq by done.
  simpl. unfold get_or. by destruct (di' !! "page_counts").
Qed.

Lemma page_count_sensor_falls_back_on_page_count_witness :
  PrinterPageCountSensor.native_value (Some (fresh Scenario.monday_data))
  = match (<["state" := VStr "idle"]> {["page_count" := VInt 1200]} : dict)
          !! "page_counts" with
    | Some page_counts => py_get page_counts "total" VNone
    | None =>
        Return
          (get (<["state" := VStr "idle"]> {["page_count" := VInt 1200]})
             "page_count")
    end.
Proof.
  apply (page_count_sensor_falls_back_on_page_count Scenario.printer
           (Scenario.online Scenario.monday) None
           (fresh Scenario.monday_data) (Some Scenario.monday_record)).
  - reflexivity.
  - reflexivity.
Defined.

(** After a successful cycle the cover entity shows exactly what the cover
    query answered, and it is enabled by default unless that answer is the
    text "unknown" or the empty text. *)
Theorem cover_sensor_shows_the_answer host env d snapshot d' cover :
  try_body host env d = (Return snapshot, d') →
  get_cover_status env = Return cover →
  PrinterCoverStatusSensor.native_value (Some snapshot) = Return cover
  ∧ PrinterCoverStatusSensor.entity_registry_enabled_default (Some snapshot)
    = Return (negb (py_eq cover (VStr "unknown"))
              && negb (py_eq cover (VStr ""))).
Proof.
  intros Hok Hcv.
  destruct (try_body_return_inv _ _ _ _ _ Hok)
    as (si & di & cv & su & tr & dt & er & web & _ & _ & Hcv' & _ & _
        & _ & _ & -> & _).
  rewrite Hcv in Hcv'. simplify_eq.
  unfold PrinterCoverStatusSensor.native_value,
    PrinterCoverStatusSensor.entity_registry_enabled_default.
  by rewrite !with_data_fresh.
Qed.

Lemma cover_sensor_shows_the_answer_witness :
  PrinterCoverStatusSensor.native_value (Some (fresh Scenario.monday_data))
  = Return (VStr "closed")
  ∧ PrinterCoverStatusSensor.entity_registry_enabled_default
      (Some (fresh Scenario.monday_data))
    = Return (negb (py_eq (VStr "closed") (VStr "unknown"))
              && negb (py_eq (VStr "closed") (VStr ""))).
Proof.
  apply (cover_sensor_shows_the_answer Scenario.printer
           (Scenario.online Scenario.monday) None
           (fresh Scenario.monday_data) (Some Scenario.monday_record)).
  - reflexivity.
  - reflexivity.
Defined.

(** After a successful cycle the unique ids start from the serial number of
    the device information, else from the one of the system information,
    and from the host when neither has one.  A serial number that is
    present but [None] is used as it is. *)
Theorem unique_id_prefers_the_serial_number
    host env d snapshot d' si di entry_host :
  try_body host env d = (Return snapshot, d') →
  get_system_info env = Return si →
  get_device_info env = Return di →
  PrinterSensorBase.unique_id (Some snapshot) entry_host
  = Return
      match di !! "serial_number" with
      | Some serial_number => serial_number
      | None =>
          match si !! "serial_number" with
          | Some serial_number => serial_number
          | None => VStr entry_host
          end
      end.
Proof.
  intros Hok Hsi Hdi.
  destruct (try_body_return_inv _ _ _ _ _ Hok)
    as (si' & di' & cv & su & tr & dt & er & web & Hsi' & Hdi' & _ & _ & _
        & _ & _ & -> & _).
  rewrite Hsi in Hsi'. rewrite Hdi in Hdi'. simplify_eq.
  unfold PrinterSensorBase.unique_id.
  rewrite get_or_fresh by done.
  assert (Hinfo : get_or (data_of si' di' cv su tr dt er web) "info" (VDict ∅)
                  = VDict (di' ∪ si')) by reflexivity.
  rewrite Hinfo. simpl. unfold get_or. rewrite lookup_union.
  by destruct (di' !! "serial_number"), (si' !! "serial_number").
Qed.

Lemma unique_id_prefers_the_serial_number_witness :
  PrinterSensorBase.unique_id (Some (fresh Scenario.monday_data))
    Scenario.printer
  = Return
      match (<["state" := VStr "idle"]> {["page_count" := VInt 1200]} : dict)
            !! "serial_number" with
      | Some serial_number => serial_number
      | None =>
          match ({["description" := VStr "LaserJet"]} : dict)
                !! "serial_number" with
          | Some serial_number => serial_number
          | None => VStr Scenario.printer
          end
      end.
Proof.
  apply (unique_id_prefers_the_serial_number Scenario.printer
           (Scenario.online Scenario.monday) None
           (fresh Scenario.monday_data) (Some Scenario.monday_record)).
  - reflexivity.
  - reflexivity.
  - reflexivity.
Defined.

(** On a fresh installation whose first cycle fails, setup still completes,
    but with nothing published and nothing on disk; the unique id the
    entity constructors compute from the published data then raises
    [AttributeError], since the constructors do not check for missing
    data. *)
Theorem first_setup_offline_leaves_no_data host env err rest :
  query_failures env = err :: rest →
  ∃ e,
    async_setup_entry host (Return ()) env None = (Return e, None)
    ∧ cached_data e = ∅
    ∧ Coordinator.data (coordinator e) = None
    ∧ PrinterSensorBase.available (Coordinator.data (coordinator e)) = false
    ∧ PrinterSensorBase.unique_id (Coordinator.data (coordinator e)) host
      = Raise
          (Exc "AttributeError" "'NoneType' object has no attribute 'get'"
             None).
Proof.
  intros Hq.
  assert (Hfail : (try_body host env None).1 = Raise err)
    by by rewrite (try_body_query_failure _ _ _ err rest).
  destruct (failure_without_cache_is_reported_aux host ∅ env None err Hfail)
    as [Hrun Hraise]; [by unfold get; rewrite lookup_empty |].
  rewrite Hraise in Hrun.
  eexists. split.
  - unfold async_setup_entry, store_async_load, Coordinator.async_refresh.
    run. rewrite Hrun. reflexivity.
  - done.
Qed.

Lemma first_setup_offline_leaves_no_data_witness :
  ∃ e,
    async_setup_entry Scenario.printer (Return ())
      (Scenario.failing Scenario.timeout Scenario.monday) None
    = (Return e, None)
    ∧ cached_data e = ∅
    ∧ Coordinator.data (coordinator e) = None
    ∧ PrinterSensorBase.available (Coordinator.data (coordinator e)) = false
    ∧ PrinterSensorBase.unique_id (Coordinator.data (coordinator e))
        Scenario.printer
      = Raise
          (Exc "AttributeError" "'NoneType' object has no attribute 'get'"
             None).
Proof.
  apply (first_setup_offline_leaves_no_data Scenario.printer
           (Scenario.failing Scenario.timeout Scenario.monday)
           Scenario.timeout []).
  reflexivity.
Defined.

(** Going offline changes no reading.  For any data, the cover, page
    count, supply, tray, error and display entities show on the snapshot
    marked stale exactly what they show on the same data published
    online. *)
Theorem readings_survive_going_offline data ts supply tray :
  PrinterCoverStatusSensor.native_value (Some (stale data ts))
  = PrinterCoverStatusSensor.native_value (Some (fresh data))
  ∧ PrinterPageCountSensor.native_value (Some (stale data ts))
    = PrinterPageCountSensor.native_value (Some (fresh data))
  ∧ PrinterSupplySensor.native_value (Some (stale data ts)) supply
    = PrinterSupplySensor.native_value (Some (fresh data)) supply
  ∧ PrinterTraySensor.native_value (Some (stale data ts)) tray
    = PrinterTraySensor.native_value (Some (fresh data)) tray
  ∧ PrinterErrorSensor.native_value (Some (stale data ts))
    = PrinterErrorSensor.native_value (Some (fresh data))
  ∧ PrinterDisplayTextSensor.native_value (Some (stale data ts))
    = PrinterDisplayTextSensor.native_value (Some (fresh data)).
Proof.
  unfold PrinterCoverStatusSensor.native_value,
    PrinterPageCountSensor.native_value, PrinterSupplySensor.native_value,
    PrinterTraySensor.native_value, PrinterErrorSensor.native_value,
    PrinterDisplayTextSensor.native_value.
  rewrite !with_data_stale, !with_data_fresh.
  unfold get.
  rewrite !get_or_stale, !get_or_fresh by done.
  rewrite !stale_lookup_other, !fresh_lookup_other by done.
  done.
Qed.

(** The attributes of the status entity never hold a [None]: whatever the
    published data, a key whose value is [None] is left out. *)
Theorem status_attributes_have_no_none data attributes k :
  PrinterStatusSensor.extra_state_attributes data = Return attributes →
  attributes !! k ≠ Some VNone.
Proof.
  unfold PrinterStatusSensor.extra_state_attributes, with_data.
  destruct data as [d|]; [| by intros [= <-]].
  destruct (truthy (VDict d)); [| by intros [= <-]].
  destruct (get_or d "info" (VDict ∅)) as [| | | | |info]; try discriminate.
  simpl. intros [= <-] Hk.
  by apply map_lookup_filter_Some in Hk as [_ Hk].
Qed.

Lemma status_attributes_have_no_none_witness :
  (filter (fun kv : string * Value => is_none kv.2 = false)
     (<["using_cached_data" := VBool true]>
        (<["description" := VStr "LaserJet"]> ∅)) : dict)
  !! "uptime" ≠ Some VNone.
Proof.
  apply (status_attributes_have_no_none
           (Some (<["is_online" := VBool false]>
                    {["info" := VDict {["description" := VStr "LaserJet"]}]}))).
  vm_compute. reflexivity.
Defined.

(** While the printer is offline the attributes of the status entity carry
    [using_cached_data] and, when the timestamp kept with the cache is
    truthy, [offline_since] with that timestamp; a cache without timestamp
    gives [using_cached_data] alone.  On the same data published online
    neither key appears. *)
Theorem status_attributes_tell_the_offline_time data info ts :
  get_or data "info" (VDict ∅) = VDict info →
  (∃ attributes,
     PrinterStatusSensor.extra_state_attributes (Some (stale data ts))
     = Return attributes
     ∧ attributes !! "using_cached_data" = Some (VBool true)
     ∧ attributes !! "offline_since"
       = if truthy ts then Some ts else None)
  ∧ (∃ attributes,
       PrinterStatusSensor.extra_state_attributes (Some (fresh data))
       = Return attributes
       ∧ attributes !! "using_cached_data" = None
       ∧ attributes !! "offline_since" = None).
Proof.
  intros Hinfo. unfold PrinterStatusSensor.extra_state_attributes. split.
  - rewrite with_data_stale, get_or_stale, Hinfo by done. simpl.
    unfold PrinterSensorBase.offline_information.
    rewrite is_printer_online_stale. simpl.
    assert (Hts0 : get (stale data ts) "offline_since" = ts)
      by (unfold get; by rewrite stale_lookup_offline_since).
    rewrite !Hts0.
    eexists. split; [reflexivity |].
    destruct (truthy ts) eqn:Hts.
    + split.
      * apply map_lookup_filter_Some. split; [| done].
        by rewrite lookup_insert_ne, lookup_insert_eq.
      * apply map_lookup_filter_Some. split; [by rewrite lookup_insert_eq |].
        simpl. by destruct ts.
    + split.
      * apply map_lookup_filter_Some. split; [| done].
        by rewrite lookup_insert_eq.
      * apply map_lookup_filter_None. left.
        by rewrite !lookup_insert_ne.
  - rewrite with_data_fresh, get_or_fresh, Hinfo by done. simpl.
    unfold PrinterSensorBase.offline_information.
    rewrite is_printer_online_fresh. simpl.
    eexists. split; [reflexivity |].
    split; apply map_lookup_filter_None; left; by rewrite !lookup_insert_ne.
Qed.

Lemma status_attributes_tell_the_offline_time_witness :
  (∃ attributes,
     PrinterStatusSensor.extra_state_attributes
       (Some (stale Scenario.monday_data (VStr Scenario.monday)))
     = Return attributes
     ∧ attributes !! "using_cached_data" = Some (VBool true)
     ∧ attributes !! "offline_since"
       = if truthy (VStr Scenario.monday)
         then Some (VStr Scenario.monday) else None)
  ∧ (∃ attributes,
       PrinterStatusSensor.extra_state_attributes
         (Some (fresh Scenario.monday_data))
       = Return attributes
       ∧ attributes !! "using_cached_data" = None
       ∧ attributes !! "offline_since" = None).
Proof.
  apply (status_attributes_tell_the_offline_time Scenario.monday_data
           ((<["state" := VStr "idle"]> {["page_count" := VInt 1200]})
            ∪ {["description" := VStr "LaserJet"]})
           (VStr Scenario.monday)).
  reflexivity.
Defined.

Lemma lookup_Some_truthy (d : dict) k v :
  d !! k = Some v → truthy (VDict d) = true.
Proof.
  intros H. simpl. rewrite bool_decide_eq_false_2; [done |].
  intros ->. by rewrite lookup_empty in H.
Qed.

Lemma for_matching_index_first {A} pre s post index
    (found : Value → result A) missing :
  Forall (fun p => py_eq (get p "index") index = false) pre →
  py_eq (get s "index") index = true →
  for_matching_index ((VDict <$> pre) ++ VDict s :: post) index found missing
  = found (VDict s).
Proof.
  intros Hpre Hs. induction Hpre as [|p pre Hp _ IH]; simpl.
  - unfold get in Hs. unfold get_or. by rewrite Hs.
  - unfold get in Hp. unfold get_or. by rewrite Hp.
Qed.

Lemma for_matching_index_none {A} items index
    (found : Value → result A) missing :
  Forall (fun p => py_eq (get p "index") index = false) items →
  for_matching_index (VDict <$> items) index found missing = missing.
Proof.
  induction 1 as [|p items Hp _ IH]; simpl; [done |].
  unfold get in Hp. unfold get_or. by rewrite Hp.
Qed.

(** A supply entity shows the [percentage] of the first published supply
    whose [index] equals its own; later supplies with the same index are
    never looked at, and a supply without [percentage] gives [None]. *)
Theorem supply_sensor_reads_the_first_match d own pre s post :
  d !! "supplies" = Some (VList ((VDict <$> pre) ++ VDict s :: post)) →
  Forall (fun p => py_eq (get p "index") (get own "index") = false) pre →
  py_eq (get s "index") (get own "index") = true →
  PrinterSupplySensor.native_value (Some d) own = Return (get s "percentage").
Proof.
  intros Hd Hpre Hs.
  unfold PrinterSupplySensor.native_value, with_data.
  rewrite (lookup_Some_truthy _ _ _ Hd), Hd. simpl.
  by rewrite for_matching_index_first.
Qed.

Lemma supply_sensor_reads_the_first_match_witness :
  PrinterSupplySensor.native_value
    (Some
       {["supplies" :=
           VList
             ((VDict <$> [ <["index" := VInt 1]> {["percentage" := VInt 42]} ])
              ++ VDict (<["index" := VInt 2]> {["percentage" := VInt 7]})
              :: [VDict (<["index" := VInt 2]> {["percentage" := VInt 99]})])]})
    {["index" := VInt 2]}
  = Return
      (get (<["index" := VInt 2]> {["percentage" := VInt 7]}) "percentage").
Proof.
  apply (supply_sensor_reads_the_first_match
           {["supplies" :=
               VList
                 ((VDict <$>
                     [ <["index" := VInt 1]> {["percentage" := VInt 42]} ])
                  ++ VDict (<["index" := VInt 2]> {["percentage" := VInt 7]})
                  :: [VDict
                        (<["index" := VInt 2]> {["percentage" := VInt 99]})])]}
           {["index" := VInt 2]}
           [ <["index" := VInt 1]> {["percentage" := VInt 42]} ]
           (<["index" := VInt 2]> {["percentage" := VInt 7]})
           [VDict (<["index" := VInt 2]> {["percentage" := VInt 99]})]).
  - reflexivity.
  - repeat constructor.
  - reflexivity.
Defined.

(** A tray entity whose index no longer occurs among the published trays
    shows [None] and has no attributes. *)
Theorem tray_sensor_of_a_vanished_tray d own trays :
  d !! "input_trays" = Some (VList (VDict <$> trays)) →
  Forall (fun p => py_eq (get p "index") (get own "index") = false) trays →
  PrinterTraySensor.native_value (Some d) own = Return VNone
  ∧ PrinterTraySensor.extra_state_attributes (Some d) own = Return ∅.
Proof.
  intros Hd Hnone.
  unfold PrinterTraySensor.native_value,
    PrinterTraySensor.extra_state_attributes, with_data.
  rewrite (lookup_Some_truthy _ _ _ Hd), Hd. simpl.
  by rewrite !for_matching_index_none.
Qed.

Lemma tray_sensor_of_a_vanished_tray_witness :
  PrinterTraySensor.native_value
    (Some {["input_trays" := VList (VDict <$> [ {["index" := VInt 1]} ])]})
    {["index" := VInt 3]} = Return VNone
  ∧ PrinterTraySensor.extra_state_attributes
      (Some {["input_trays" := VList (VDict <$> [ {["index" := VInt 1]} ])]})
      {["index" := VInt 3]} = Return ∅.
Proof.
  apply (tray_sensor_of_a_vanished_tray
           {["input_trays" := VList (VDict <$> [ {["index" := VInt 1]} ])]}
           {["index" := VInt 3]} [ {["index" := VInt 1]} ]).
  - reflexivity.
  - repeat constructor.
Defined.

(** The cycle publishes whatever the supplies query answers.  When the
    answer cannot be iterated ([None], a number, a boolean), the cycle
    still succeeds, and reading a supply entity then raises the
    [TypeError] of the iteration: only a missing key is guarded, and a
    published snapshot always has the key. *)
Theorem supply_sensor_needs_an_iterable
    host env d snapshot d' supplies own e :
  try_body host env d = (Return snapshot, d') →
  get_supplies env = Return supplies →
  py_iter supplies = Raise e →
  snapshot !! "supplies" = Some supplies
  ∧ PrinterSupplySensor.native_value (Some snapshot) own = Raise e
  ∧ PrinterSupplySensor.extra_state_attributes (Some snapshot) own = Raise e.
Proof.
  intros Hok Hsu Hiter.
  destruct (try_body_return_inv _ _ _ _ _ Hok)
    as (si & di & cv & su & tr & dt & er & web & _ & _ & _ & Hsu' & _
        & _ & _ & -> & _).
  rewrite Hsu in Hsu'. simplify_eq.
  assert (Hkey : fresh (data_of si di cv su tr dt er web) !! "supplies"
                 = Some su) by reflexivity.
  split; [exact Hkey |].
  unfold PrinterSupplySensor.native_value,
    PrinterSupplySensor.extra_state_attributes.
  rewrite !with_data_fresh, Hkey. simpl. by rewrite Hiter.
Qed.

Lemma supply_sensor_needs_an_iterable_witness :
  fresh
    (data_of {["description" := VStr "LaserJet"]}
       (<["state" := VStr "idle"]> {["page_count" := VInt 1200]})
       (VStr "closed") VNone (VList []) (VStr "Ready") VNone true)
  !! "supplies" = Some VNone
  ∧ PrinterSupplySensor.native_value
      (Some
         (fresh
            (data_of {["description" := VStr "LaserJet"]}
               (<["state" := VStr "idle"]> {["page_count" := VInt 1200]})
               (VStr "closed") VNone (VList []) (VStr "Ready") VNone true)))
      {["index" := VInt 1]}
    = Raise (Exc "TypeError" "'NoneType' object is not iterable" None)
  ∧ PrinterSupplySensor.extra_state_attributes
      (Some
         (fresh
            (data_of {["description" := VStr "LaserJet"]}
               (<["state" := VStr "idle"]> {["page_count" := VInt 1200]})
               (VStr "closed") VNone (VList []) (VStr "Ready") VNone true)))
      {["index" := VInt 1]}
    = Raise (Exc "TypeError" "'NoneType' object is not iterable" None).
Proof.
  apply (supply_sensor_needs_an_iterable Scenario.printer
           (Scenario.without_supplies Scenario.monday) None
           (fresh
              (data_of {["description" := VStr "LaserJet"]}
                 (<["state" := VStr "idle"]> {["page_count" := VInt 1200]})
                 (VStr "closed") VNone (VList []) (VStr "Ready") VNone true))
           (Some
              (cache_record
                 (data_of {["description" := VStr "LaserJet"]}
                    (<["state" := VStr "idle"]> {["page_count" := VInt 1200]})
                    (VStr "closed") VNone (VList []) (VStr "Ready") VNone
                    true)
                 Scenario.monday Scenario.printer))
           VNone {["index" := VInt 1]}
           (Exc "TypeError" "'NoneType' object is not iterable" None)).
  - reflexivity.
  - reflexivity.
  - reflexivity.
Defined.

(** The error and the display entity never show a blank state.  The error
    entity shows the published [errors] when they are truthy and "none"
    otherwise (nothing published, a missing key, [None], an empty value);
    the display entity shows the published [display_text] when it is truthy
    and "unknown" otherwise.  Either way the value shown is truthy. *)
Theorem error_and_display_states_are_never_blank data :
  PrinterErrorSensor.native_value data
  = match data with
    | Some d => if truthy (get d "errors") then get d "errors" else VStr "none"
    | None => VStr "none"
    end
  ∧ truthy (PrinterErrorSensor.native_value data) = true
  ∧ PrinterDisplayTextSensor.native_value data
    = match data with
      | Some d =>
          if truthy (get d "display_text") then get d "display_text"
          else VStr "unknown"
      | None => VStr "unknown"
      end
  ∧ truthy (PrinterDisplayTextSensor.native_value data) = true.
Proof.
  unfold PrinterErrorSensor.native_value,
    PrinterDisplayTextSensor.native_value, with_data.
  destruct data as [d|]; [| done].
  destruct (truthy (VDict d)) eqn:Hd.
  - repeat split.
    + by destruct (truthy (get d "errors")) eqn:H.
    + by destruct (truthy (get d "display_text")) eqn:H.
  - assert (d = ∅) as ->.
    { simpl in Hd. apply negb_false_iff in Hd.
      by apply bool_decide_eq_true in Hd. }
    done.
Qed.

Lemma error_and_display_states_are_never_blank_witness :
  PrinterErrorSensor.native_value
    (Some (<["errors" := VStr "Paper jam"]> {["display_text" := VStr ""]}))
  = VStr "Paper jam"
  ∧ PrinterDisplayTextSensor.native_value
      (Some (<["errors" := VStr "Paper jam"]> {["display_text" := VStr ""]}))
    = VStr "unknown".
Proof.
  pose proof (error_and_display_states_are_never_blank
                (Some (<["errors" := VStr "Paper jam"]>
                         {["display_text" := VStr ""]})))
    as (He & _ & Hd & _).
  split; [exact He | exact Hd].
Defined.

Lemma py_eq_str v s : py_eq v (VStr s) = true → v = VStr s.
Proof.
  destruct v; simpl; try discriminate.
  intros H. by apply String.eqb_eq in H as ->.
Qed.

(** A display entity that is disabled by default shows "unknown": it is
    disabled only when nothing is published or the display text is [None]
    or empty. *)
Theorem disabled_display_sensor_shows_unknown data :
  PrinterDisplayTextSensor.entity_registry_enabled_default data = false →
  PrinterDisplayTextSensor.native_value data = VStr "unknown".
Proof.
  unfold PrinterDisplayTextSensor.entity_registry_enabled_default,
    PrinterDisplayTextSensor.native_value, with_data.
  destruct data as [d|]; [| done].
  destruct (truthy (VDict d)); [| done].
  intros H. apply andb_false_iff in H as [H | H].
  - destruct (get d "display_text"); by try discriminate.
  - apply negb_false_iff, py_eq_str in H. by rewrite H.
Qed.

Lemma disabled_display_sensor_shows_unknown_witness :
  PrinterDisplayTextSensor.native_value
    (Some (<["is_online" := VBool true]> {["display_text" := VStr ""]}))
  = VStr "unknown".
Proof.
  apply (disabled_display_sensor_shows_unknown
           (Some (<["is_online" := VBool true]>
                    {["display_text" := VStr ""]}))).
  reflexivity.
Defined.
